(** * Flow-alert detectors of Slips: a shallow embedding and its properties

  The connection analyzer [modules/flowalerts/conn.py] is embedded function
  by function.  Python state (the instance attributes of [Conn], the
  external database, the evidence helper) is threaded explicitly; an
  exception that a function may raise is a value of [result].  The DNS
  analyzer [modules/flowalerts/dns.py] is exercised by [tests/test_dns.py]
  only, its two detectors used below are modelled from the specification
  and those tests. *)

From Stdlib Require Import String Ascii ZArith List Bool Lia.
From stdpp Require Import gmap strings list pretty.

Open Scope string_scope.

(** ** Python values shared by the detectors *)

Module Py.

(** Exceptions the embedded code can raise. *)
Inductive exn : Type :=
| KeyError
| IndexError
| UnboundLocalError.

(** The outcome of a call: a value, or a raised exception. *)
Inductive result (A : Type) : Type :=
| Ret (a : A)
| Raise (e : exn).
Arguments Ret {A} a.
Arguments Raise {A} e.

Definition bind {A B : Type} (r : result A) (k : A → result B) : result B :=
  match r with
  | Ret a => k a
  | Raise e => Raise e
  end.

Definition raises {A : Type} (r : result A) : bool :=
  match r with Ret _ => false | Raise _ => true end.

(** What a detector hands back: [None], [True] or [False]. *)
Inductive retval : Type :=
| PyNone
| PyBool (b : bool).

(** [str.lower] on ASCII letters. *)
Definition lower_ascii (c : ascii) : ascii :=
  let n := nat_of_ascii c in
  if (65 <=? n)%nat && (n <=? 90)%nat then ascii_of_nat (n + 32) else c.

Fixpoint lower (s : string) : string :=
  match s with
  | EmptyString => EmptyString
  | String c s' => String (lower_ascii c) (lower s')
  end.

(** [p in s] for strings. *)
Fixpoint contains (p s : string) : bool :=
  String.prefix p s ||
  match s with
  | EmptyString => false
  | String _ s' => contains p s'
  end.

(** [s.split(sep)] for a one-character separator: never empty. *)
Fixpoint split (sep : ascii) (s : string) : list string :=
  match s with
  | EmptyString => [EmptyString]
  | String c s' =>
      if Ascii.eqb c sep then EmptyString :: split sep s'
      else match split sep s' with
           | [] => [String c EmptyString]
           | w :: ws => String c w :: ws
           end
  end.

(** [l[-1]] of a list that [split] produced. *)
Definition last_field (l : list string) : string := List.last l EmptyString.

(** [x in l] for a list of strings. *)
Definition mem (x : string) (l : list string) : bool :=
  bool_decide (x ∈ l).

(** Truthiness of a string. *)
Definition truthy (s : string) : bool := negb (String.eqb s "").

End Py.

Import Py.

(** ** Evidence *)

(** One constructor per [set_evidence] helper the embedded detectors call,
  with the arguments in the order of the call. *)
Inductive evidence : Type :=
| multiple_reconnection_attempts
  (profileid twid daddr : string) (uids : list string)
  (timestamp : string) (reconnections : nat)
| conn_without_dns (daddr timestamp profileid twid uid : string)
| device_changing_ips (smac old_ip profileid twid uid timestamp : string)
| connection_to_multiple_ports
  (profileid twid : string) (uids : list string) (timestamp : string)
  (dstports : list string) (victim attacker : string)
| dga (nxdomains : nat) (stime profileid twid : string) (uids : list string)
| invalid_dns_answer (domain answer profileid twid stime uid : string).

Global Instance evidence_eq_dec : EqDecision evidence.
Proof. solve_decision. Defined.

(** ** P2P heuristic: [Conn.is_p2p] *)

Module P2P.

(** [self.p2p_daddrs], destination address to number of recorded hits, is a
    [gmap string nat]. *)

(** [is_p2p(dport, proto, daddr)], returning the verdict and the updated
    [p2p_daddrs]. *)
Definition is_p2p (dport : Z) (proto daddr : string) (p2p_daddrs : gmap string nat)
  : bool * gmap string nat :=
  if String.eqb (lower proto) "udp" && (30000 <? dport)%Z then
    match p2p_daddrs !! daddr with
    | Some n =>
        if (6 <=? n)%nat then (true, p2p_daddrs)
        else
          let d := <[daddr := (n + 1)%nat]> p2p_daddrs in
          ((5 <=? size d)%nat, d)
    | None =>
        let d := <[daddr := 1%nat]> p2p_daddrs in
        ((5 <=? size d)%nat, d)
    end
  else (false, p2p_daddrs).

(** A connection as [is_p2p] receives it. *)
Record conn := Conn { c_dport : Z; c_proto : string; c_daddr : string }.

Definition high_udp (c : conn) : bool :=
  String.eqb (lower (c_proto c)) "udp" && (30000 <? c_dport c)%Z.

Definition step (p2p_daddrs : gmap string nat) (c : conn) : gmap string nat :=
  snd (is_p2p (c_dport c) (c_proto c) (c_daddr c) p2p_daddrs).

(** The counter after a sequence of connections, oldest first. *)
Definition run (cs : list conn) (p2p_daddrs : gmap string nat)
  : gmap string nat :=
  foldl step p2p_daddrs cs.

(** Hits recorded for [d]: absent counts as zero. *)
Definition hits (p2p_daddrs : gmap string nat) (d : string) : nat :=
  default 0%nat (p2p_daddrs !! d).

(** Number of connections of [cs] that went to [d]. *)
Definition sent_to (d : string) (cs : list conn) : nat :=
  length (filter (λ c, c_daddr c = d) cs).

(** The distinct destinations of [cs]. *)
Definition destinations (cs : list conn) : gset string :=
  list_to_set (c_daddr <$> cs).

(** A high-port UDP connection to [d], for the examples. *)
Definition udp_to (d : string) : conn := Conn 30001 "UDP" d.

End P2P.

(** ** Reconnection attempts: [Conn.check_multiple_reconnection_attempts] *)

Module Reconnections.

(** A reconnection table is a Python dict from the key
    ["saddr-daddr-dport"] to the pair (attempts, uids); the detector holds a
    reference to such a dict and updates it in place, so dicts live in a heap
    of objects addressed by [loc]. *)
Definition loc : Type := nat.

(** The calls the detector makes on [self.db]. *)
Inductive db_call : Type :=
| Get_reconnections_for_tw (profileid twid : string)
| SetReconnections (profileid twid : string)
    (table : gmap string (nat * list string)).

(** Modelled from the spec: the database class behind [self.db] is not among
    the sources.  [KeyValueStore] is the store of the specification, "a
    key-value store ... accessed through a narrow get/set contract", shared
    between processes: a read builds a new dict from the stored value and a
    write replaces the stored value; the table of a profile and time window
    that was never written is empty.  [SharedTable] is a stand-in that hands
    out one and the same dict object at every read and ignores writes, which
    is how a [unittest.mock.Mock] with a fixed return value behaves (the
    factory of the test suite patches the database class with one). *)
Inductive db_impl : Type :=
| KeyValueStore (stored : gmap (string * string) (gmap string (nat * list string)))
| SharedTable (table : loc).

Record state : Type := State {
  heap : gmap loc (gmap string (nat * list string));
  next : loc;
  db : db_impl;
  calls : list db_call;
  emitted : list evidence
}.

(** The dict a reference points to. *)
Definition deref (l : loc) (s : state) : gmap string (nat * list string) :=
  default ∅ (heap s !! l).

(** [d[key] = v] on the dict at [l]. *)
Definition set_item (l : loc) (key : string) (v : nat * list string)
  (s : state) : state :=
  State (<[l := <[key := v]> (deref l s)]> (heap s)) (next s) (db s)
        (calls s) (emitted s).

(** [self.set_evidence.<helper>(...)]. *)
Definition emit (ev : evidence) (s : state) : state :=
  State (heap s) (next s) (db s) (calls s) ((emitted s ++ [ev])%list).

(** [self.db.get_reconnections_for_tw(profileid, twid)]. *)
Definition get_reconnections_for_tw (profileid twid : string) (s : state)
  : loc * state :=
  let log := (calls s ++ [Get_reconnections_for_tw profileid twid])%list in
  match db s with
  | KeyValueStore stored =>
      let t := default ∅ (stored !! (profileid, twid)) in
      (next s,
       State (<[next s := t]> (heap s)) (S (next s)) (db s) log (emitted s))
  | SharedTable l => (l, State (heap s) (next s) (db s) log (emitted s))
  end.

(** [self.db.setReconnections(profileid, twid, data)]. *)
Definition setReconnections (profileid twid : string) (data : loc) (s : state)
  : state :=
  let t := deref data s in
  let log := (calls s ++ [SetReconnections profileid twid t])%list in
  match db s with
  | KeyValueStore stored =>
      State (heap s) (next s)
            (KeyValueStore (<[(profileid, twid) := t]> stored)) log (emitted s)
  | SharedTable l => State (heap s) (next s) (db s) log (emitted s)
  end.

(** The f-string [f"{saddr}-{daddr}-{dport}"]. *)
Definition reconnection_key (saddr daddr : string) (dport : Z) : string :=
  saddr ++ "-" ++ daddr ++ "-" ++ pretty dport.

(** [check_multiple_reconnection_attempts].  In the [except KeyError] branch
    the local [uids] is never bound, hence the [option]. *)
Definition check_multiple_reconnection_attempts
  (origstate saddr daddr : string) (dport : Z)
  (uid profileid twid timestamp : string) (s : state) : result state :=
  if negb (String.eqb origstate "REJ") then Ret s
  else
    let key := reconnection_key saddr daddr dport in
    let '(current_reconnections, s1) :=
      get_reconnections_for_tw profileid twid s in
    let '(reconnections, uids, s2) :=
      match deref current_reconnections s1 !! key with
      | Some (n, us) =>
          let reconnections := (n + 1)%nat in
          let uids := (us ++ [uid])%list in
          (reconnections, Some uids,
           set_item current_reconnections key (reconnections, uids) s1)
      | None =>
          (1%nat, None, set_item current_reconnections key (1%nat, [uid]) s1)
      end in
    if (reconnections <? 5)%nat then Ret s2
    else
      match uids with
      | None => Raise UnboundLocalError
      | Some uids =>
          let s3 :=
            emit (multiple_reconnection_attempts
                    profileid twid daddr uids timestamp reconnections) s2 in
          let s4 := set_item current_reconnections key (0%nat, []) s3 in
          Ret (setReconnections profileid twid current_reconnections s4)
      end.

(** The fields of a flow that the detector reads. *)
Record flow : Type := Flow {
  origstate : string; saddr : string; daddr : string; dport : Z;
  uid : string; timestamp : string
}.

Definition on_flow (profileid twid : string) (f : flow) (s : state)
  : result state :=
  check_multiple_reconnection_attempts
    (origstate f) (saddr f) (daddr f) (dport f) (uid f)
    profileid twid (timestamp f) s.

(** The flows of one profile and time window, handled in arrival order. *)
Fixpoint on_flows (profileid twid : string) (fs : list flow) (s : state)
  : result state :=
  match fs with
  | [] => Ret s
  | f :: fs' =>
      bind (on_flow profileid twid f s) (on_flows profileid twid fs')
  end.

(** A REJ flow between fixed endpoints. *)
Definition rej (S D : string) (P : Z) (u ts : string) : flow :=
  Flow "REJ" S D P u ts.

(** The analyzer in front of a key-value store that holds [stored]. *)
Definition over_store
  (stored : gmap (string * string) (gmap string (nat * list string))) : state :=
  State ∅ 0%nat (KeyValueStore stored) [] [].

(** The analyzer in front of a stand-in whose one dict starts as [t]. *)
Definition over_shared (t : gmap string (nat * list string)) : state :=
  State {[ 0%nat := t ]} 1%nat (SharedTable 0%nat) [] [].

(** The table a read of the database yields in state [s]. *)
Definition table_read (profileid twid : string) (s : state)
  : gmap string (nat * list string) :=
  match db s with
  | KeyValueStore stored => default ∅ (stored !! (profileid, twid))
  | SharedTable l => deref l s
  end.

(** The attempts a table holds under [key]; none when the key is absent. *)
Definition attempts (t : gmap string (nat * list string)) (key : string) : nat :=
  match t !! key with Some (n, _) => n | None => 0%nat end.

(** The uids a table holds under [key]. *)
Definition uids_of (t : gmap string (nat * list string)) (key : string)
  : list string :=
  match t !! key with Some (_, us) => us | None => [] end.

(** The evidence a run has set, when it ends without an exception. *)
Definition reported (r : result state) : result (list evidence) :=
  bind r (λ s, Ret (emitted s)).

(** Is [c] a write of the reconnection table? *)
Definition is_write (c : db_call) : bool :=
  match c with SetReconnections _ _ _ => true | _ => false end.

End Reconnections.

(** ** Connections without DNS: [Conn.check_connection_without_dns_resolution] *)

Module ConnWithoutDns.

(** An element of the ["SNI"] list of an IP's stored information. *)
Inductive sni_item : Type :=
| SniNone
| SniText (s : string)
| SniDict (server_name : option string).

(** The value under ["SNI"]: a list of items, or something that is used as
    it is. *)
Inductive sni_field : Type :=
| SniList (items : list sni_item)
| SniPlain (s : string).

(** The dict [self.db.get_ip_info(ip)] returns; a missing key is [None]. *)
Record ip_info : Type := IpInfo {
  SNI : option sni_field;
  reverse_dns : option string
}.

(** What [self.db.get_dns_resolution(daddr)] returns: a dict, whose
    ["resolved-by"] entry may be missing, or a list. *)
Inductive dns_resolution : Type :=
| ResolutionDict (resolved_by : option (list string))
| ResolutionList (l : list string).

(** Everything the check reads from outside the analyzer instance at the
    moment of one call: the database, the whitelist's organisation analyzer,
    the DNS analyzer's server probe, the command line and the clock (the
    time since start-up in whole minutes).  The constant
    [utils.supported_orgs] is declared outside the sources and is a field
    here. *)
Record env : Type := Env {
  is_ignored_ip : string → bool;
  client_ips : list string;
  get_input_type : string;
  is_doh_server : string → bool;
  is_dns_server : string → bool;
  interface_or_growing_dir : bool;
  our_ips : list string;
  minutes_since_start : Z;
  is_ip_resolved : string → nat → bool;
  get_the_other_ip_version : string → option string;
  get_dns_resolution : string → dns_resolution;
  get_ip_info : string → option ip_info;
  supported_orgs : list string;
  is_ip_asn_in_org_asn : string → string → bool;
  is_domain_in_org : string → string → bool;
  is_ip_in_org : string → string → bool
}.

(** [self.conn_without_dns_interface_wait_time], in minutes. *)
Definition conn_without_dns_interface_wait_time : Z := 30.

(** The argument list of the check, which is also the [params] list handed to
    the timer. *)
Record params : Type := Params {
  flow_type : string; appproto : string; daddr : string; twid : string;
  profileid : string; timestamp : string; uid : string
}.

(** The analyzer's own state: the list of uids handed to a timer, the timers
    started and not yet fired, and the evidence set so far. *)
Record state : Type := State {
  connections_checked_in_conn_dns_timer_thread : list string;
  timers : list params;
  emitted : list evidence
}.

(** [should_ignore_conn_without_dns]. *)
Definition should_ignore_conn_without_dns (e : env)
  (flow_type appproto daddr : string) : bool :=
  negb (String.eqb flow_type "conn")
  || mem appproto ["dns"; "icmp"]
  || is_ignored_ip e daddr
  || mem daddr (client_ips e)
  || String.eqb (get_input_type e) "zeek_log_file"
  || is_doh_server e daddr
  || is_dns_server e daddr.

(** [check_if_resolution_was_made_by_different_version]: a missing or empty
    other address is falsy, and [.get] on a list raises the [AttributeError]
    that the function swallows. *)
Definition check_if_resolution_was_made_by_different_version (e : env)
  (profileid daddr : string) : bool :=
  match get_the_other_ip_version e profileid with
  | Some other_ip =>
      truthy other_ip &&
      match get_dns_resolution e daddr with
      | ResolutionDict resolved_by => mem other_ip (default [] resolved_by)
      | ResolutionList _ => false
      end
  | None => false
  end.

(** The first [try] block of [is_well_known_org]: the value left in [sni],
    [None] standing for [False].  Indexing an empty list is not among the
    exceptions the block catches. *)
Definition sni_of (ip_data : option ip_info) : result (option string) :=
  match ip_data with
  | None => Ret None
  | Some d =>
      match SNI d with
      | None => Ret None
      | Some (SniPlain s) => Ret (Some s)
      | Some (SniList []) => Raise IndexError
      | Some (SniList (SniNone :: _)) => Ret None
      | Some (SniList (SniText s :: _)) =>
          if String.eqb s "" then Ret None else Ret (Some s)
      | Some (SniList (SniDict server_name :: _)) => Ret server_name
      end
  end.

(** The second [try] block: the value left in [rdns]. *)
Definition rdns_of (ip_data : option ip_info) : option string :=
  match ip_data with
  | None => None
  | Some d => reverse_dns d
  end.

(** The three tests the inner loop makes for one [domain] and one [org]. *)
Definition org_tests (e : env) (ip org : string) (domain : option string)
  : bool :=
  is_ip_asn_in_org_asn e ip org
  || match domain with
     | Some d => truthy d && is_domain_in_org e d org
     | None => false
     end
  || is_ip_in_org e ip org.

(** [for domain in flow_domains: ...]: [true] when the loop returned [True]. *)
Fixpoint domains_loop (e : env) (ip org : string)
  (flow_domains : list (option string)) : bool :=
  match flow_domains with
  | [] => false
  | domain :: rest =>
      if org_tests e ip org domain then true
      else domains_loop e ip org rest
  end.

(** [for org in utils.supported_orgs: ...].  The [return False] that follows
    the inner loop belongs to the body of the outer loop, so the body returns
    at its first pass; with no organisation at all the function falls off its
    end. *)
Definition orgs_loop (e : env) (ip : string)
  (flow_domains : list (option string)) (orgs : list string) : retval :=
  match orgs with
  | [] => PyNone
  | org :: _ =>
      if domains_loop e ip org flow_domains then PyBool true
      else PyBool false
  end.

(** [is_well_known_org]. *)
Definition is_well_known_org (e : env) (ip : string) : result retval :=
  let ip_data := get_ip_info e ip in
  bind (sni_of ip_data) (λ sni,
    let rdns := rdns_of ip_data in
    Ret (orgs_loop e ip [rdns; sni] (supported_orgs e))).

(** Truthiness of a returned value. *)
Definition is_true (v : retval) : bool :=
  match v with PyBool true => true | _ => false end.

(** [l.remove(x)] under [contextlib.suppress(ValueError)]: the first
    occurrence goes, an absent element changes nothing. *)
Fixpoint remove_first (x : string) (l : list string) : list string :=
  match l with
  | [] => []
  | y :: l' => if String.eqb y x then l' else y :: remove_first x l'
  end.

(** [check_connection_without_dns_resolution].  Starting the timer thread is
    recorded in [timers]; the thread later calls the check with the same
    arguments (see [fire]). *)
Definition check_connection_without_dns_resolution (e : env) (a : params)
  (s : state) : result (retval * state) :=
  if should_ignore_conn_without_dns e (flow_type a) (appproto a) (daddr a)
  then Ret (PyNone, s)
  else if interface_or_growing_dir e
          && negb (mem (last_field (split "_" (profileid a))) (our_ips e))
  then Ret (PyBool false, s)
  else if interface_or_growing_dir e
          && (minutes_since_start e <? conn_without_dns_interface_wait_time)%Z
  then Ret (PyBool false, s)
  else if is_ip_resolved e (daddr a) 24
  then Ret (PyBool false, s)
  else if negb (mem (uid a) (connections_checked_in_conn_dns_timer_thread s))
  then
    Ret (PyNone,
         State (connections_checked_in_conn_dns_timer_thread s ++ [uid a])%list
               (timers s ++ [a])%list
               (emitted s))
  else if check_if_resolution_was_made_by_different_version
            e (profileid a) (daddr a)
  then Ret (PyBool false, s)
  else
    bind (is_well_known_org e (daddr a)) (λ well_known,
      if is_true well_known then Ret (PyBool false, s)
      else
        Ret (PyNone,
             State (remove_first (uid a)
                      (connections_checked_in_conn_dns_timer_thread s))
                   (timers s)
                   (emitted s ++
                      [conn_without_dns (daddr a) (timestamp a) (profileid a)
                         (twid a) (uid a)])%list)).

(** The state a call leaves behind; a call that raises leaves the state as it
    found it, since every update follows the last point that can raise. *)
Definition after (e : env) (a : params) (s : state) : state :=
  match check_connection_without_dns_resolution e a s with
  | Ret (_, s') => s'
  | Raise _ => s
  end.

(** The oldest timer fires: it leaves [timers] and runs the check with the
    arguments it was given, against the world as it is by then. *)
Definition fire (e : env) (s : state) : state :=
  match timers s with
  | [] => s
  | a :: rest =>
      after e a
        (State (connections_checked_in_conn_dns_timer_thread s) rest
               (emitted s))
  end.

(** The evidence a call adds. *)
Definition evidence_of_call (e : env) (a : params) (s : state)
  : list evidence :=
  drop (length (emitted s)) (emitted (after e a s)).

(** Does some organisation of the list pass one of the SNI, rDNS or ASN
    tests for [ip]?  What "matches a well-known organization" says, every
    organisation considered. *)
Definition matches_some_org (e : env) (ip : string) : bool :=
  existsb
    (λ org,
       is_ip_asn_in_org_asn e ip org
       || match rdns_of (get_ip_info e ip) with
          | Some d => truthy d && is_domain_in_org e d org
          | None => false
          end
       || match sni_of (get_ip_info e ip) with
          | Ret (Some d) => truthy d && is_domain_in_org e d org
          | _ => false
          end)
    (supported_orgs e).




(** The call gets as far as the test of the uid against the list: the flow
    is not ignored, the interface tests let it through and the destination
    has no resolution. *)
Definition reaches_uid_test (e : env) (a : params) : bool :=
  negb (should_ignore_conn_without_dns e (flow_type a) (appproto a) (daddr a))
  && negb (interface_or_growing_dir e
           && (negb (mem (last_field (split "_" (profileid a))) (our_ips e))
               || (minutes_since_start e
                     <? conn_without_dns_interface_wait_time)%Z))
  && negb (is_ip_resolved e (daddr a) 24).

(** The re-check finds the condition resolved, in one of the three ways the
    specification names. *)
Definition recheck_resolves (e : env) (a : params) : bool :=
  is_ip_resolved e (daddr a) 24
  || check_if_resolution_was_made_by_different_version
       e (profileid a) (daddr a)
  || match is_well_known_org e (daddr a) with
     | Ret v => is_true v
     | Raise _ => false
     end.

(** The specification's wording, first half: the uid leaves the list when the
    re-check resolves the condition or sets the evidence. *)
Definition removed_at_recheck (e : env) (a : params) (s : state) : Prop :=
  uid a ∈ connections_checked_in_conn_dns_timer_thread s →
  recheck_resolves e a = true ∨ evidence_of_call e a s ≠ [] →
  uid a ∉ connections_checked_in_conn_dns_timer_thread (after e a s).

(** The specification's wording, second half: once the evidence is set, a
    later call with the same uid, in the world [e'], does nothing more. *)
Definition terminal_after_evidence (e e' : env) (a : params) (s : state)
  : Prop :=
  uid a ∈ connections_checked_in_conn_dns_timer_thread s →
  evidence_of_call e a s ≠ [] →
  after e' a (after e a s) = after e a s.

(** Worlds for the examples.  In [quiet] nothing is known about any address:
    no resolution, no other address of the profile, no stored information,
    no organisation that claims it. *)
Definition quiet : env :=
  Env (λ _, false) [] "pcap" (λ _, false) (λ _, false) false [] 0%Z
      (λ _ _, false) (λ _, None) (λ _, ResolutionDict None) (λ _, None)
      ["google"; "microsoft"; "apple"; "facebook"; "twitter"]
      (λ _ _, false) (λ _ _, false) (λ _ _, false).

(** As [quiet], but the autonomous system of "13.107.42.14" is one of the
    organisation "microsoft", the second of the list. *)
Definition microsoft_asn : env :=
  Env (λ _, false) [] "pcap" (λ _, false) (λ _, false) false [] 0%Z
      (λ _ _, false) (λ _, None) (λ _, ResolutionDict None) (λ _, None)
      ["google"; "microsoft"; "apple"; "facebook"; "twitter"]
      (λ ip org, String.eqb ip "13.107.42.14" && String.eqb org "microsoft")
      (λ _ _, false) (λ _ _, false).

(** As [quiet], but the profile has the other address "2001:db8::1", which
    resolved "13.107.42.14". *)
Definition resolved_by_other_version : env :=
  Env (λ _, false) [] "pcap" (λ _, false) (λ _, false) false [] 0%Z
      (λ _ _, false) (λ _, Some "2001:db8::1")
      (λ _, ResolutionDict (Some ["2001:db8::1"])) (λ _, None)
      ["google"; "microsoft"; "apple"; "facebook"; "twitter"]
      (λ _ _, false) (λ _ _, false) (λ _ _, false).

(** A flow to "13.107.42.14" and the analyzer that waits for its re-check. *)
Definition a_flow : params :=
  Params "conn" "ssl" "13.107.42.14" "timewindow1" "profile_192.168.1.5"
         "1635765895.03" "CAeDWs37BipkfP21u8".

Definition awaiting : state := State ["CAeDWs37BipkfP21u8"] [] [].

End ConnWithoutDns.

(** ** Devices changing IPs: [Conn.check_device_changing_ips] *)

Module DeviceChangingIps.

(** The address tests come from libraries outside the sources:
    [validators.ipv4] and [utils.is_private_ip] after [ipaddress.ip_address]. *)
Record addr_tests : Type := AddrTests {
  ipv4 : string → bool;
  is_private_ip : string → bool
}.

(** Modelled from the spec: the database calls of this check are not among
    the sources; the specification lists them as get/set of the "source IP
    seen before" marker, kept here as the set of marked addresses, and get of
    the MAC to IP bindings, kept as the decoded list of addresses per MAC. *)
Record database : Type := Database {
  seen_in_connlog : gset string;
  ip_of_mac : gmap string (list string)
}.

Record state : Type := State {
  db : database;
  emitted : list evidence
}.

Definition was_ip_seen_in_connlog_before (saddr : string) (s : state) : bool :=
  bool_decide (saddr ∈ seen_in_connlog (db s)).

Definition mark_srcip_as_seen_in_connlog (saddr : string) (s : state) : state :=
  State (Database ({[saddr]} ∪ seen_in_connlog (db s)) (ip_of_mac (db s)))
        (emitted s).

Definition get_ip_of_mac (smac : string) (s : state) : option (list string) :=
  ip_of_mac (db s) !! smac.

Definition emit (ev : evidence) (s : state) : state :=
  State (db s) (emitted s ++ [ev])%list.

(** The [for ... else] over the decoded list: the first address that is an
    IPv4, if there is one. *)
Fixpoint first_ipv4 (t : addr_tests) (ips : list string) : option string :=
  match ips with
  | [] => None
  | ip :: rest => if ipv4 t ip then Some ip else first_ipv4 t rest
  end.

(** [check_device_changing_ips]. *)
Definition check_device_changing_ips (t : addr_tests)
  (flow_type smac profileid twid uid timestamp : string) (s : state) : state :=
  if negb (contains "conn" flow_type) then s
  else if negb (truthy smac) then s
  else
    let saddr := last_field (split "_" profileid) in
    if negb (ipv4 t saddr && is_private_ip t saddr) then s
    else if was_ip_seen_in_connlog_before saddr s then s
    else
      let s1 := mark_srcip_as_seen_in_connlog saddr s in
      match get_ip_of_mac smac s1 with
      | None => s1
      | Some old_ip_list =>
          match first_ipv4 t old_ip_list with
          | None => s1
          | Some old_ip =>
              if negb (String.eqb old_ip saddr) then
                emit (device_changing_ips
                        smac old_ip profileid twid uid timestamp) s1
              else s1
          end
      end.

(** The evidence a call adds. *)
Definition evidence_of_call (t : addr_tests)
  (flow_type smac profileid twid uid timestamp : string) (s : state)
  : list evidence :=
  drop (length (emitted s))
       (emitted (check_device_changing_ips
                   t flow_type smac profileid twid uid timestamp s)).


(** A decimal number of at most three digits that is at most 255. *)
Definition octet (s : string) : bool :=
  match s with
  | String a EmptyString => Ascii.leb "0" a && Ascii.leb a "9"
  | String a (String b EmptyString) =>
      Ascii.leb "0" a && Ascii.leb a "9" && Ascii.leb "0" b && Ascii.leb b "9"
  | String a (String b (String c EmptyString)) =>
      Ascii.leb "0" a && Ascii.leb a "9" && Ascii.leb "0" b && Ascii.leb b "9"
      && Ascii.leb "0" c && Ascii.leb c "9"
      && String.leb (String a (String b (String c EmptyString))) "255"
  | _ => false
  end.

(** Address tests for the examples: four octets between dots, and the three
    private ranges 10/8, 172.16/12 and 192.168/16. *)
Definition dotted : addr_tests :=
  AddrTests
    (λ s, match split "." s with
          | [a; b; c; d] => octet a && octet b && octet c && octet d
          | _ => false
          end)
    (λ s, match split "." s with
          | [a; b; c; d] =>
              String.eqb a "10"
              || (String.eqb a "192" && String.eqb b "168")
              || (String.eqb a "172" && String.leb "16" b && String.leb b "31"
                  && Nat.eqb (String.length b) 2)
          | _ => false
          end).

(** Stores for the examples: nothing seen yet, and the MAC
    "00:00:5e:00:53:af" bound to the given addresses. *)
Definition bound_to (ips : list string) : state :=
  State (Database ∅ {[ "00:00:5e:00:53:af" := ips ]}) [].

End DeviceChangingIps.

(** ** Connections to several ports: [Conn.detect_connection_to_multiple_ports] *)

Module MultiplePorts.

(** One entry of the aggregate the database keeps per contacted address: the
    keys of its ["dstports"] dict and its ["uid"] list. *)
Record aggregate : Type := Aggregate {
  dstports : list string;
  uid : list string
}.

(** The two database calls of the check: [get_port_info(portproto)], where
    [None] is any falsy answer, and [get_data_from_profile_tw(profileid,
    twid, direction, state, protocol, role, type_data)]. *)
Record env : Type := Env {
  get_port_info : string → option string;
  get_data_from_profile_tw :
    string → string → string → string → string → string → string →
    gmap string aggregate
}.

(** [detect_connection_to_multiple_ports], returning the evidence it sets. *)
Definition detect_connection_to_multiple_ports (e : env)
  (saddr daddr proto state appproto : string) (dport : Z)
  (timestamp profileid twid : string) : result (list evidence) :=
  if negb (String.eqb proto "tcp") || negb (String.eqb state "Established")
  then Ret []
  else
    let dport_name :=
      if truthy appproto then Some appproto
      else get_port_info e (pretty dport ++ "/" ++ proto) in
    if match dport_name with Some n => truthy n | None => false end
    then Ret []
    else
      match split "_" profileid !! 1%nat with
      | None => Raise IndexError
      | Some ip =>
          if String.eqb ip saddr then
            let daddrs :=
              get_data_from_profile_tw e profileid twid
                "Dst" "Established" "TCP" "Client" "IPs" in
            match daddrs !! daddr with
            | None => Ret []
            | Some entry =>
                if (length (dstports entry) <=? 1)%nat then Ret []
                else
                  Ret [connection_to_multiple_ports
                         profileid twid (uid entry) timestamp (dstports entry)
                         daddr (last_field (split "_" profileid))]
            end
          else if String.eqb (last_field (split "_" profileid)) daddr then
            let saddrs :=
              get_data_from_profile_tw e profileid twid
                "Src" "Established" "TCP" "Server" "IPs" in
            match saddrs !! saddr with
            | None => Raise KeyError
            | Some entry =>
                if (length (dstports entry) <=? 1)%nat then Ret []
                else
                  Ret [connection_to_multiple_ports
                         profileid twid (uid entry) timestamp (dstports entry)
                         (last_field (split "_" profileid)) daddr]
            end
          else Ret []
      end.

(** A store for the examples: no port is known and no aggregate is kept for
    any address. *)
Definition no_aggregates : env := Env (λ _, None) (λ _ _ _ _ _ _ _, ∅).

(** A store for the examples: no port is known, and the aggregates of every
    profile hold the one address "10.0.0.9" with the two ports 22 and 8080. *)
Definition two_ports : env :=
  Env (λ _, None)
      (λ _ _ _ _ _ _ _,
         {[ "10.0.0.9" := Aggregate ["22"; "8080"] ["uid1"; "uid2"] ]}).

End MultiplePorts.

(** ** DGA by NXDOMAIN accumulation: [DNS.detect_dga] *)

Module Dga.

(** [s] ends with [suffix]. *)
Definition ends_with (suffix s : string) : bool :=
  let n := String.length s in
  let k := String.length suffix in
  (k <=? n)%nat && String.eqb (substring (n - k) k s) suffix.

(** The DNS analyzer's state that the detector touches: [self.nxdomains],
    keyed by profile and time window, the configured threshold and the
    evidence set so far. *)
Record state : Type := State {
  nxdomains : gmap (string * string) (list string * list string);
  nxdomains_threshold : nat;
  emitted : list evidence
}.

(** Modelled from the spec: the function [detect_dga] of
    [modules/flowalerts/dns.py] is not among the sources.  Of the
    specification: "skip ARPA/local queries and whitelisted domains; on rcode
    == NXDOMAIN, append (domain, uid) to NXDomainCounter[(profile,
    timewindow)]; once the accumulated count reaches a threshold, emit
    evidence carrying all accumulated uids and reset the counter to empty.
    Below threshold, no evidence."  The returned values and the arguments of
    the evidence call are those [tests/test_dns.py] asserts: [False] for a
    skipped query and for the first one of a window, [None] for a later one
    below the threshold, [True] with the count as first argument when the
    evidence is set. *)
Definition detect_dga (is_whitelisted : string → bool)
  (rcode_name query stime profileid twid uid : string) (s : state)
  : retval * state :=
  if negb (String.eqb rcode_name "NXDOMAIN")
     || ends_with ".arpa" query || ends_with ".local" query
     || is_whitelisted query
  then (PyBool false, s)
  else
    let '(queries, uids) := default ([], []) (nxdomains s !! (profileid, twid)) in
    let queries := (queries ++ [query])%list in
    let uids := (uids ++ [uid])%list in
    if (nxdomains_threshold s <=? length queries)%nat then
      (PyBool true,
       State (<[(profileid, twid) := ([], [])]> (nxdomains s))
             (nxdomains_threshold s)
             (emitted s ++ [dga (length queries) stime profileid twid uids])%list)
    else
      (match nxdomains s !! (profileid, twid) with
       | None => PyBool false
       | Some _ => PyNone
       end,
       State (<[(profileid, twid) := (queries, uids)]> (nxdomains s))
             (nxdomains_threshold s)
             (emitted s)).

(** A DNS transaction as the detector receives it. *)
Record txn : Type := Txn {
  rcode_name : string; query : string; stime : string; uid : string
}.

Definition on_txn (is_whitelisted : string → bool) (profileid twid : string)
  (s : state) (t : txn) : state :=
  snd (detect_dga is_whitelisted
         (rcode_name t) (query t) (stime t) profileid twid (uid t) s).

(** The transactions of one profile and time window, in arrival order. *)
Definition on_txns (is_whitelisted : string → bool) (profileid twid : string)
  (ts : list txn) (s : state) : state :=
  foldl (on_txn is_whitelisted profileid twid) s ts.

(** The queries the detector counts. *)
Definition counted (is_whitelisted : string → bool) (t : txn) : bool :=
  String.eqb (rcode_name t) "NXDOMAIN"
  && negb (ends_with ".arpa" (query t))
  && negb (ends_with ".local" (query t))
  && negb (is_whitelisted (query t)).

(** The domains and uids accumulated for a window; none when the window has
    no entry. *)
Definition accumulated (profileid twid : string) (s : state)
  : list string * list string :=
  default ([], []) (nxdomains s !! (profileid, twid)).

(** The data of [test_detect_dga_alert]: nine NXDOMAIN queries, the tenth
    one, none of them whitelisted, and the threshold at 10. *)
Definition nx (q : string) : txn :=
  Txn "NXDOMAIN" q "1635765895.037696" "CAeDWs37BipkfP21u8".

Definition nine : list txn :=
  [nx "example1.com"; nx "example2.com"; nx "example3.com";
   nx "example4.com"; nx "example5.com"; nx "example6.com";
   nx "example7.com"; nx "example8.com"; nx "example9.com"].

Definition fresh : state := State ∅ 10 [].

End Dga.

(** ** Invalid DNS answers: [DNS.check_invalid_dns_answers] *)

Module InvalidDnsAnswers.

(** The cached resolutions of the store, by answer, and the evidence set so
    far. *)
Record state : Type := State {
  dns_resolutions : gmap string (list string);
  deleted : list string;
  emitted : list evidence
}.

(** [self.db.delete_dns_resolution(answer)]; [deleted] records the calls. *)
Definition delete_dns_resolution (answer : string) (s : state) : state :=
  State (delete answer (dns_resolutions s)) (deleted s ++ [answer])%list
        (emitted s).

Definition emit (ev : evidence) (s : state) : state :=
  State (dns_resolutions s) (deleted s) (emitted s ++ [ev])%list.

(** Modelled from the spec: the function [check_invalid_dns_answers] of
    [modules/flowalerts/dns.py] is not among the sources.  Of the
    specification: "any answer that is a loopback/invalid address (except when
    the query itself is "localhost") is evidence-worthy and also triggers
    removal of that cached resolution from the external store".  Which
    addresses count as loopback or invalid is the parameter [invalid]; the
    arguments of the two calls are those [tests/test_dns.py] asserts. *)
Definition check_invalid_dns_answers (invalid : string → bool)
  (domain : string) (answers : list string)
  (profileid twid stime uid : string) (s : state) : state :=
  foldl
    (λ s answer,
       if invalid answer && negb (String.eqb domain "localhost") then
         delete_dns_resolution answer
           (emit (invalid_dns_answer domain answer profileid twid stime uid) s)
       else s)
    s answers.

(** Addresses for the examples: the test suite has "127.0.0.1" invalid and
    "8.8.8.8" valid. *)
Definition loopback_or_unspecified (answer : string) : bool :=
  mem answer ["127.0.0.1"; "0.0.0.0"].

End InvalidDnsAnswers.

(** ** Further evidence *)

(** The [set_evidence] helpers of the remaining detectors, arguments in the
    order of the call. *)
Inductive flow_evidence : Type :=
| unknown_port
    (daddr : string) (dport : Z) (proto timestamp profileid twid uid : string)
| for_port_0_connection
    (saddr daddr : string) (sport : Z) (dport : option Z)
    (profileid twid uid timestamp victim attacker : string)
| different_localnet_usage
    (daddr portproto profileid timestamp twid uid ip_outside_localnet : string).

(** ** Unknown ports: [Conn.port_belongs_to_an_org], [Conn.check_unknown_port] *)

Module UnknownPort.

(** The decoded answer of [get_organization_of_port]: its ["ip"] and
    ["org_name"] lists. *)
Record organization_info : Type := OrganizationInfo {
  ip : list string;
  org_name : list string
}.

(** What the two functions read from outside.  [get_organization_of_port]
    and [get_port_info] answer [None] for anything falsy;
    [in_network daddr ip] is [ipaddress.ip_address(daddr) in
    ipaddress.ip_network(ip)], with [None] for the [ValueError] that the
    caller suppresses; the two vendor strings are the results of [str(...)]. *)
Record env : Type := Env {
  get_organization_of_port : string → option organization_info;
  in_network : string → string → option bool;
  get_mac_vendor_from_profile : string → string;
  get_ip_identification : string → string;
  is_ip_in_org : string → string → bool;
  get_port_info : string → option string;
  is_ftp_port : Z → bool
}.

(** [for ip in org_ips: ...]: [true] when the loop returned [True]. *)
Fixpoint ranges_loop (e : env) (daddr : string) (org_ips : list string) : bool :=
  match org_ips with
  | [] => false
  | ip :: rest =>
      match in_network e daddr ip with
      | Some true => true
      | _ => ranges_loop e daddr rest
      end
  end.

(** [for org_name in organization_info["org_name"]: ...]: [true] when the
    loop returned [True]. *)
Fixpoint names_loop (e : env) (daddr src_mac_vendor dst_mac_vendor : string)
  (names : list string) : bool :=
  match names with
  | [] => false
  | org_name :: rest =>
      let org_name := lower org_name in
      if contains org_name (lower src_mac_vendor)
         || contains org_name (lower dst_mac_vendor)
      then true
      else if contains org_name (lower (get_ip_identification e daddr))
      then true
      else if is_ip_in_org e daddr org_name then true
      else names_loop e daddr src_mac_vendor dst_mac_vendor rest
  end.

(** [port_belongs_to_an_org]. *)
Definition port_belongs_to_an_org (e : env) (daddr portproto profileid : string)
  : bool :=
  match get_organization_of_port e portproto with
  | None => false
  | Some organization_info =>
      let org_ips := ip organization_info in
      if mem daddr org_ips then true
      else if ranges_loop e daddr org_ips then true
      else
        let src_mac_vendor := get_mac_vendor_from_profile e profileid in
        let dst_mac_vendor :=
          get_mac_vendor_from_profile e ("profile_" ++ daddr) in
        names_loop e daddr src_mac_vendor dst_mac_vendor
          (org_name organization_info)
  end.

(** The analyzer's state for this check: [self.p2p_daddrs] and the evidence
    set so far. *)
Record state : Type := State {
  p2p_daddrs : gmap string nat;
  emitted : list flow_evidence
}.

(** [check_unknown_port].  A missing [dport] is [None]; the conjunction
    before the evidence is evaluated left to right, so [is_p2p] runs, and
    counts, only for a protocol without "icmp" in its name. *)
Definition check_unknown_port (e : env) (dport : option Z)
  (proto daddr profileid twid uid timestamp state : string) (s : UnknownPort.state)
  : retval * UnknownPort.state :=
  match dport with
  | None => (PyNone, s)
  | Some dport =>
      if (dport =? 0)%Z then (PyNone, s)
      else if negb (String.eqb state "Established") then (PyBool false, s)
      else
        let portproto := pretty dport ++ "/" ++ proto in
        if match get_port_info e portproto with
           | Some n => truthy n
           | None => false
           end
        then (PyBool false, s)
        else if port_belongs_to_an_org e daddr portproto profileid
        then (PyBool false, s)
        else if contains "icmp" proto then (PyNone, s)
        else
          let '(p2p, d) := P2P.is_p2p dport proto daddr (p2p_daddrs s) in
          if p2p then (PyNone, State d (emitted s))
          else if is_ftp_port e dport then (PyNone, State d (emitted s))
          else
            (PyBool true,
             State d (emitted s ++
                        [unknown_port daddr dport proto timestamp profileid
                           twid uid])%list)
  end.

(** A flow as [check_unknown_port] receives it from [analyze]. *)
Record flow : Type := Flow {
  f_dport : option Z; f_proto : string; f_daddr : string;
  f_profileid : string; f_twid : string; f_uid : string;
  f_timestamp : string; f_state : string
}.

Definition on_flow (s : UnknownPort.state) (ef : env * flow)
  : UnknownPort.state :=
  let '(e, f) := ef in
  snd (check_unknown_port e (f_dport f) (f_proto f) (f_daddr f)
         (f_profileid f) (f_twid f) (f_uid f) (f_timestamp f) (f_state f) s).

(** Flows in arrival order, each with the answers of the store at its
    arrival. *)
Definition on_flows (fs : list (env * flow)) (s : UnknownPort.state)
  : UnknownPort.state :=
  foldl on_flow s fs.

(** The evidence is about a UDP flow to a port above 30000. *)
Definition about_high_udp (ev : flow_evidence) : bool :=
  match ev with
  | unknown_port _ dport proto _ _ _ _ =>
      String.eqb (lower proto) "udp" && (30000 <? dport)%Z
  | _ => false
  end.

(** The number of evidence entries about UDP flows to ports above 30000. *)
Definition udp_evidence (s : UnknownPort.state) : nat :=
  length (filter (λ ev, about_high_udp ev = true) (emitted s)).

(** The sum of the recorded hits. *)
Definition total_hits (m : gmap string nat) : nat :=
  map_fold (λ _ n acc, (n + acc)%nat) 0%nat m.

(** A store for the examples: nothing is known about any port. *)
Definition nothing_known : env :=
  Env (λ _, None) (λ _ _, None) (λ _, "None") (λ _, "") (λ _ _, false)
      (λ _, None) (λ _, false).

End UnknownPort.

(** ** Port 0: [Conn.check_conn_to_port_0] *)

Module PortZero.

(** [check_conn_to_port_0], returning the evidence it sets.  The source port
    is a number; a flow without destination port has [None], which is not
    equal to 0. *)
Definition check_conn_to_port_0 (sport : Z) (dport : option Z)
  (proto saddr daddr profileid twid uid timestamp : string)
  : list flow_evidence :=
  if mem (lower proto) ["igmp"; "icmp"; "ipv6-icmp"; "arp"] then []
  else if negb (sport =? 0)%Z && negb (bool_decide (dport = Some 0%Z)) then []
  else
    let attacker := if (sport =? 0)%Z then saddr else daddr in
    let victim := if String.eqb attacker daddr then saddr else daddr in
    [for_port_0_connection saddr daddr sport dport profileid twid uid
       timestamp victim attacker].

End PortZero.

(** ** Local networks: [Conn.check_different_localnet_usage] *)

Module LocalNet.

(** What the check reads from outside: [valid] tells whether
    [ipaddress.ip_address] accepts the string, [get_local_network] is [None]
    for a falsy answer, [ipv4] is [validators.ipv4] and [is_private_ip] is
    [utils.is_private_ip].  [IPv4Network net] is
    [ipaddress.IPv4Network(net)]: [None] where the constructor raises
    [ValueError] (a string that is no IPv4 network, or one with host bits
    set), and otherwise the test [ip_obj in ...] of the network. *)
Record env : Type := Env {
  valid : string → bool;
  get_local_network : option string;
  ipv4 : string → bool;
  is_private_ip : string → bool;
  IPv4Network : string → option (string → bool)
}.

(** [check_different_localnet_usage], returning the evidence it sets, or
    [None] when it raises [ValueError]: [ipaddress.ip_address] does so
    before anything else is looked at, and [ipaddress.IPv4Network] once the
    address is found to be a private IPv4 one.  Nothing is set before either
    point. *)
Definition check_different_localnet_usage (e : env)
  (saddr daddr : string) (dport : option Z)
  (proto profileid timestamp twid uid what_to_check : string)
  : option (list flow_evidence) :=
  let ip_to_check := if String.eqb what_to_check "srcip" then saddr else daddr in
  if negb (valid e ip_to_check) then None
  else
    match get_local_network e with
    | None => Some []
    | Some own_local_network =>
        if negb (ipv4 e ip_to_check && is_private_ip e ip_to_check) then Some []
        else
          match IPv4Network e own_local_network with
          | None => None
          | Some network =>
              if network ip_to_check then Some []
              else
                Some [different_localnet_usage daddr
                        (match dport with Some p => pretty p | None => "None" end
                         ++ "/" ++ proto)
                        profileid timestamp twid uid what_to_check]
          end
    end.

(** How a call ends: [None] when it raises, and otherwise whether it set an
    evidence. *)
Definition outcome (r : option (list flow_evidence)) : option bool :=
  match r with
  | None => None
  | Some [] => Some false
  | Some (_ :: _) => Some true
  end.

(** A store for the examples: every string is a private IPv4 address, the
    local network is "192.168.1.0/24", and a network written with host bits
    set is refused. *)
Definition home : env :=
  Env (λ _, true) (Some "192.168.1.0/24") (λ _, true) (λ _, true)
      (λ net, if String.eqb net "192.168.1.0/24"
              then Some (λ ip, String.prefix "192.168.1." ip)
              else None).

(** As [home], with the local network stored as "192.168.1.5/24". *)
Definition host_bits_set : env :=
  Env (λ _, true) (Some "192.168.1.5/24") (λ _, true) (λ _, true)
      (λ net, if String.eqb net "192.168.1.0/24"
              then Some (λ ip, String.prefix "192.168.1." ip)
              else None).

End LocalNet.

(** ** Bytes sent per destination: [Conn.get_sent_bytes] *)

Module SentBytes.

(** A flow of [all_flows]: ["daddr"] is read with a subscript, ["sbytes"]
    and ["starttime"] with [.get] and a default. *)
Record flow : Type := Flow {
  daddr : string;
  sbytes : option Z;
  starttime : option string
}.

(** What [ipaddress.ip_address(ip)] gives: the three properties read from
    the address object. *)
Record address : Type := Address {
  is_multicast : bool;
  is_link_local : bool;
  is_reserved : bool
}.

(** [is_ignored_ip_data_upload]; [ip_address] answers [None] where
    [ipaddress.ip_address] raises [ValueError], and so does the function. *)
Definition is_ignored_ip_data_upload (ip_address : string → option address)
  (gateway : option string) (ip : string) : option bool :=
  match ip_address ip with
  | None => None
  | Some ip_obj =>
      Some (bool_decide (Some ip = gateway)
            || is_multicast ip_obj || is_link_local ip_obj || is_reserved ip_obj)
  end.

(** One pass of the loop of [get_sent_bytes] over [bytes_sent]. *)
Definition count_flow (ip_address : string → option address)
  (gateway : option string)
  (bytes_sent : option (gmap string (Z * list string * string)))
  (item : string * flow) : option (gmap string (Z * list string * string)) :=
  match bytes_sent with
  | None => None
  | Some bytes_sent =>
      let '(uid, flow) := item in
      let sbytes := default 0%Z (sbytes flow) in
      let ts := default "" (starttime flow) in
      match is_ignored_ip_data_upload ip_address gateway (daddr flow) with
      | None => None
      | Some ignored =>
          if ignored || (sbytes =? 0)%Z then Some bytes_sent
          else
            match bytes_sent !! daddr flow with
            | Some (mbs_sent, uids, _) =>
                Some (<[daddr flow :=
                          ((mbs_sent + sbytes)%Z, (uids ++ [uid])%list, ts)]>
                        bytes_sent)
            | None => Some (<[daddr flow := (sbytes, [uid], ts)]> bytes_sent)
            end
      end
  end.

(** [get_sent_bytes] over the items of [all_flows] in their order; [None]
    when it raises [ValueError]. *)
Definition get_sent_bytes (ip_address : string → option address)
  (gateway : option string) (all_flows : list (string * flow))
  : option (gmap string (Z * list string * string)) :=
  foldl (count_flow ip_address gateway) (Some ∅) all_flows.

(** The flows that count for the destination [d]: to [d], with a non-zero
    number of bytes sent. *)
Definition counted_for (d : string) (all_flows : list (string * flow))
  : list (string * flow) :=
  filter (λ item, daddr item.2 = d ∧ default 0%Z (sbytes item.2) ≠ 0%Z)
         all_flows.

(** The sum of the bytes sent by the given flows. *)
Definition sum_sbytes (fs : list (string * flow)) : Z :=
  foldr (λ item acc, (default 0%Z (sbytes item.2) + acc)%Z) 0%Z fs.

(** The start time of the last of the given flows. *)
Definition last_starttime (fs : list (string * flow)) : string :=
  match last fs with
  | Some item => default "" (starttime item.2)
  | None => ""
  end.

(** Addresses for the examples: everything but "not-an-ip" is an address,
    and "224.0.0.1" is a multicast one. *)
Definition plain (ip : string) : option address :=
  if String.eqb ip "not-an-ip" then None
  else Some (Address (String.eqb ip "224.0.0.1") false false).

End SentBytes.

(** ** Runs of the connection-without-DNS check *)

Module ConnWithoutDnsRuns.
Import ConnWithoutDns.

(** The pending timer at position [i] fires: it leaves [timers] and runs
    the check with the arguments it was given, against the world as it is by
    then.  Every timer is a [TimerThread] of its own, so any of the pending
    ones may be the next to run; [fire] is the case of the oldest.  A
    position at which no timer is pending changes nothing. *)
Definition fire_nth (e : env) (i : nat) (s : state) : state :=
  match timers s !! i with
  | None => s
  | Some a =>
      after e a
        (State (connections_checked_in_conn_dns_timer_thread s)
               (delete i (timers s)) (emitted s))
  end.

(** What happens to the analyzer: a flow arrives and the check is called
    with its arguments, or one of the pending timers fires, the one at
    position [i]; each in the world of its moment.  The calls follow one
    another, none starts while another runs. *)
Inductive event : Type :=
| FlowArrives (e : env) (a : params)
| TimerFires (e : env) (i : nat).

Definition handle (s : state) (ev : event) : state :=
  match ev with
  | FlowArrives e a => after e a s
  | TimerFires e i => fire_nth e i s
  end.

(** The events in their order. *)
Definition run (evs : list event) (s : state) : state := foldl handle s evs.

(** The uids of the flows that arrive. *)
Fixpoint arriving_uids (evs : list event) : list string :=
  match evs with
  | [] => []
  | FlowArrives _ a :: rest => uid a :: arriving_uids rest
  | TimerFires _ _ :: rest => arriving_uids rest
  end.

(** The uid an evidence of this check is about. *)
Definition uid_of (ev : evidence) : string :=
  match ev with
  | conn_without_dns _ _ _ _ uid => uid
  | _ => ""
  end.

(** The analyzer as [init] leaves it. *)
Definition initial : state := State [] [] [].

(** The world of an event. *)
Definition world (ev : event) : env :=
  match ev with
  | FlowArrives e _ => e
  | TimerFires e _ => e
  end.

(** Slips reads from an interface, or from a growing directory, and started
    less than [conn_without_dns_interface_wait_time] minutes ago. *)
Definition warming_up (e : env) : bool :=
  interface_or_growing_dir e
  && (minutes_since_start e <? conn_without_dns_interface_wait_time)%Z.

(** A second flow for the examples, to another destination. *)
Definition another_flow : params :=
  Params "conn" "ssl" "52.97.1.2" "timewindow1" "profile_192.168.1.5"
         "1635765890.11" "C9X1".

(** As [quiet], but the stored SNI of every address is an empty list. *)
Definition empty_sni : env :=
  Env (λ _, false) [] "pcap" (λ _, false) (λ _, false) false [] 0%Z
      (λ _ _, false) (λ _, None) (λ _, ResolutionDict None)
      (λ _, Some (IpInfo (Some (SniList [])) None))
      ["google"; "microsoft"; "apple"; "facebook"; "twitter"]
      (λ _ _, false) (λ _ _, false) (λ _ _, false).

End ConnWithoutDnsRuns.

(** ** Runs of the device check *)

Module DeviceChangingIpsRuns.
Import DeviceChangingIps.

(** The arguments of one call of [check_device_changing_ips]. *)
Record call : Type := Call {
  flow_type : string; smac : string; profileid : string; twid : string;
  uid : string; timestamp : string
}.

Definition handle (t : addr_tests) (s : state) (c : call) : state :=
  check_device_changing_ips t (flow_type c) (smac c) (profileid c) (twid c)
    (uid c) (timestamp c) s.

(** The calls in their order. *)
Definition run (t : addr_tests) (cs : list call) (s : state) : state :=
  foldl (handle t) s cs.

(** The evidence is about the source address [saddr]: the address of the
    profile it names. *)
Definition about (saddr : string) (ev : evidence) : Prop :=
  match ev with
  | device_changing_ips _ _ profileid _ _ _ =>
      last_field (split "_" profileid) = saddr
  | _ => False
  end.

Global Instance about_dec (saddr : string) (ev : evidence)
  : Decision (about saddr ev).
Proof. destruct ev; cbn; apply _. Defined.

End DeviceChangingIpsRuns.

(** ** Keys of the reconnection table *)

Module ReconnectionKeys.

(** The string has no "-" in it. *)
Fixpoint no_dash (s : string) : bool :=
  match s with
  | EmptyString => true
  | String c s' => negb (Ascii.eqb c "-") && no_dash s'
  end.

End ReconnectionKeys.

(** ** The timeline: [Timeline.get_dns_resolution] *)

Module Timeline.

(** What the function returns: a list of domains or one string. *)
Inductive resolution : Type :=
| Domains (l : list string)
| Text (s : string).

(** [get_dns_resolution]; the argument is the ["domains"] entry of the dict
    the database returns for the address, [None] when the key is missing. *)
Definition get_dns_resolution (domains : option (list string)) : resolution :=
  let dns_resolution := default [] domains in
  if (3 <? length dns_resolution)%nat then
    match last dns_resolution with
    | Some d => if truthy d then Text d else Text "????"
    | None => Text "????"
    end
  else
    match dns_resolution with
    | [] => Text "????"
    | _ => Domains dns_resolution
    end.

End Timeline.

(** * Properties of the detectors *)

Open Scope nat_scope.
Set Warnings "-clear-no-such-hyp".

Module P2P_facts.
Import P2P.

Lemma is_p2p_low (dport : Z) (proto daddr : string) (m : gmap string nat) :
  String.eqb (lower proto) "udp" && (30000 <? dport)%Z = false →
  is_p2p dport proto daddr m = (false, m).
Proof. intros H. unfold is_p2p. by rewrite H. Qed.

Lemma size_insert_dom (d : string) (v : nat) (m : gmap string nat) :
  size (<[d := v]> m) = size ({[d]} ∪ dom m).
Proof. by rewrite <- size_dom, dom_insert_L. Qed.

(** The verdict and the new counter of a high-port UDP connection. *)
Lemma is_p2p_high (dport : Z) (proto daddr : string) (m : gmap string nat) :
  String.eqb (lower proto) "udp" && (30000 <? dport)%Z = true →
  fst (is_p2p dport proto daddr m)
    = bool_decide (6 ≤ hits m daddr ∨ 5 ≤ size ({[daddr]} ∪ dom m))
  ∧ dom (snd (is_p2p dport proto daddr m)) = {[daddr]} ∪ dom m
  ∧ ∀ d, hits (snd (is_p2p dport proto daddr m)) d
         = if decide (d = daddr)
           then (if decide (6 ≤ hits m d) then hits m d else S (hits m d))
           else hits m d.
Proof.
  intros H. unfold is_p2p, hits. rewrite H.
  assert (Hsz : ∀ v, (5 <=? size (<[daddr := v]> m))
                     = bool_decide (5 ≤ size ({[daddr]} ∪ dom m))).
  { intros v. rewrite size_insert_dom.
    destruct (5 <=? _) eqn:S5; symmetry.
    - apply bool_decide_eq_true. by apply Nat.leb_le.
    - apply bool_decide_eq_false. apply Nat.leb_gt in S5. lia. }
  destruct (m !! daddr) as [n|] eqn:E.
  - destruct (6 <=? n) eqn:L; cbn [fst snd default from_option]; unfold id.
    + apply Nat.leb_le in L. split; [|split].
      * symmetry. apply bool_decide_eq_true. by left.
      * apply elem_of_dom_2 in E. set_solver.
      * intros d. destruct (decide (d = daddr)) as [->|]; [|done].
        rewrite E. cbn. by rewrite decide_True.
    + apply Nat.leb_gt in L. split; [|split].
      * rewrite Hsz. apply bool_decide_ext. lia.
      * by rewrite dom_insert_L.
      * intros d. destruct (decide (d = daddr)) as [->|Hne].
        -- rewrite lookup_insert_eq, E. cbn. rewrite decide_False; lia.
        -- by rewrite lookup_insert_ne.
  - cbn [fst snd default from_option]; unfold id. split; [|split].
    + rewrite Hsz. apply bool_decide_ext. lia.
    + by rewrite dom_insert_L.
    + intros d. destruct (decide (d = daddr)) as [->|Hne].
      * rewrite lookup_insert_eq, E. cbn. rewrite decide_False; lia.
      * by rewrite lookup_insert_ne.
Qed.

Lemma run_snoc (cs : list conn) (c : conn) (m : gmap string nat) :
  run (cs ++ [c]) m = step (run cs m) c.
Proof. unfold run. by rewrite foldl_app. Qed.

Lemma sent_to_snoc (d : string) (cs : list conn) (c : conn) :
  sent_to d (cs ++ [c])
  = (sent_to d cs + if decide (d = c_daddr c) then 1 else 0)%nat.
Proof.
  unfold sent_to. rewrite filter_app, length_app. f_equal.
  rewrite filter_cons, filter_nil.
  destruct (decide (d = c_daddr c)) as [->|Hne].
  - by rewrite decide_True.
  - by rewrite decide_False.
Qed.

Lemma destinations_snoc (cs : list conn) (c : conn) :
  destinations (cs ++ [c]) = {[c_daddr c]} ∪ destinations cs.
Proof. unfold destinations. rewrite fmap_app, list_to_set_app_L. simpl. set_solver. Qed.

(** What the counter holds after a run of high-port UDP connections from the
    empty counter: every destination seen, each with its number of
    connections, capped at 6. *)
Lemma run_counter (cs : list conn) :
  Forall (λ c, high_udp c = true) cs →
  dom (run cs ∅) = destinations cs
  ∧ ∀ d, hits (run cs ∅) d = Nat.min 6 (sent_to d cs).
Proof.
  induction cs as [|c cs IH] using rev_ind; intros Hall.
  - split; [set_solver|]. intros d. done.
  - apply Forall_app in Hall as [Hcs Hc]. rewrite Forall_singleton in Hc.
    destruct (IH Hcs) as [Hdom Hhits].
    rewrite run_snoc. unfold step.
    destruct (is_p2p_high (c_dport c) (c_proto c) (c_daddr c) (run cs ∅) Hc)
      as (_ & Hd & Hh).
    split.
    + rewrite Hd, Hdom, destinations_snoc. done.
    + intros d. rewrite Hh, sent_to_snoc, Hhits.
      destruct (decide (d = c_daddr c)); [|lia].
      destruct (decide (6 ≤ _)); lia.
Qed.

(** Property X16.  The two thresholds of [is_p2p] are read at different
    moments.  After any sequence [cs] of UDP connections to ports above
    30000, handled from the empty counter, a further such connection [c] is
    classified as P2P exactly when its destination has 6 hits on record
    before the call, or the distinct destinations seen once [c] is recorded,
    that of [c] included, are 5 or more.  The hits on record before the call
    are the earlier connections to that destination, counted up to 6.  A
    connection that is not UDP or goes to a port of 30000 or below is never
    classified as P2P and leaves any counter as it was. *)
Theorem is_p2p_thresholds (cs : list conn) (c : conn) (m : gmap string nat) :
  Forall (λ c, high_udp c = true) cs →
  (high_udp c = true →
     (fst (is_p2p (c_dport c) (c_proto c) (c_daddr c) (run cs ∅)) = true
      ↔ 6 ≤ hits (run cs ∅) (c_daddr c)
        ∨ 5 ≤ size (destinations (cs ++ [c])))
     ∧ hits (run cs ∅) (c_daddr c) = Nat.min 6 (sent_to (c_daddr c) cs))
  ∧ (high_udp c = false →
     is_p2p (c_dport c) (c_proto c) (c_daddr c) m = (false, m)).
Proof.
  intros Hall. split.
  - intros Hc. destruct (run_counter cs Hall) as [Hdom Hhits].
    destruct (is_p2p_high (c_dport c) (c_proto c) (c_daddr c) (run cs ∅) Hc)
      as (Hv & _ & _).
    split; [|apply Hhits].
    rewrite Hv, bool_decide_eq_true, Hdom, destinations_snoc. done.
  - intros Hc. by apply is_p2p_low.
Qed.

Lemma is_p2p_thresholds_witness :
  Forall (λ c, high_udp c = true) [udp_to "a"; udp_to "a"; udp_to "a"; udp_to "a"; udp_to "a"; udp_to "a"]
  ∧ (fst (is_p2p 30001 "UDP" "a" (run [udp_to "a"; udp_to "a"; udp_to "a"; udp_to "a"; udp_to "a"; udp_to "a"] ∅)) = true
      ↔ 6 ≤ hits (run [udp_to "a"; udp_to "a"; udp_to "a"; udp_to "a"; udp_to "a"; udp_to "a"] ∅) "a"
        ∨ 5 ≤ size (destinations ([udp_to "a"; udp_to "a"; udp_to "a"; udp_to "a"; udp_to "a"; udp_to "a"] ++ [udp_to "a"]))).
Proof.
  assert (H : Forall (λ c, high_udp c = true) [udp_to "a"; udp_to "a"; udp_to "a"; udp_to "a"; udp_to "a"; udp_to "a"]).
  { repeat constructor. }
  split; [exact H|].
  apply (is_p2p_thresholds _ (udp_to "a") ∅ H). reflexivity.
Defined.

Lemma sent_to_replicate (d : string) (n : nat) :
  sent_to d (replicate n (udp_to d)) = n.
Proof.
  unfold sent_to. induction n as [|n IH]; [done|].
  cbn [replicate]. rewrite filter_cons, decide_True by done.
  cbn [length]. by rewrite IH.
Qed.

Lemma destinations_replicate (d : string) (n : nat) :
  destinations (replicate (S n) (udp_to d)) = {[d]}.
Proof.
  unfold destinations. induction n as [|n IH]; [set_solver|].
  cbn [replicate fmap list_fmap list_to_set] in *. rewrite IH. set_solver.
Qed.

(** Claim C5, where the code departs from it.  Six connections to UDP port
    30001 of one destination [d], handled from the empty counter.  With the
    sixth the destination has reached 6 hits, which is "more than 5" as the
    docstring of [is_p2p] has it, and yet the sixth is not classified as
    P2P: the test of the hits comes before the increment.  The seventh is
    the first that is classified.  The distinct destinations are one
    throughout, so the other threshold plays no part. *)
Theorem sixth_to_one_destination_is_not_p2p (d : string) :
  let five := replicate 5 (udp_to d) in
  let six := replicate 6 (udp_to d) in
  fst (is_p2p 30001 "UDP" d (run five ∅)) = false
  ∧ sent_to d six = 6
  ∧ hits (run six ∅) d = 6
  ∧ size (destinations six) = 1
  ∧ fst (is_p2p 30001 "UDP" d (run six ∅)) = true.
Proof.
  intros five six.
  assert (H5 : Forall (λ c, high_udp c = true) five)
    by (apply Forall_replicate; reflexivity).
  assert (H6 : Forall (λ c, high_udp c = true) six)
    by (apply Forall_replicate; reflexivity).
  destruct (run_counter five H5) as [Hd5 Hh5].
  destruct (run_counter six H6) as [Hd6 Hh6].
  assert (Hu : String.eqb (lower "UDP") "udp" && (30000 <? 30001)%Z = true)
    by reflexivity.
  destruct (is_p2p_high 30001 "UDP" d (run five ∅) Hu) as (Hv5 & _ & _).
  destruct (is_p2p_high 30001 "UDP" d (run six ∅) Hu) as (Hv6 & _ & _).
  split; [|split; [|split; [|split]]].
  - rewrite Hv5. apply bool_decide_eq_false.
    rewrite Hh5, Hd5. unfold five. rewrite sent_to_replicate.
    rewrite destinations_replicate.
    rewrite union_idemp_L, size_singleton.
    change (Nat.min 6 5) with 5. lia.
  - apply sent_to_replicate.
  - rewrite Hh6. unfold six. by rewrite sent_to_replicate.
  - unfold six. rewrite destinations_replicate. apply size_singleton.
  - rewrite Hv6. apply bool_decide_eq_true. left.
    rewrite Hh6. unfold six. by rewrite sent_to_replicate.
Qed.

(** Seven connections to one destination: the counter reaches 6 with the
    sixth, which is not classified, and the seventh is. *)
Example seventh_to_one_destination :
  let six := replicate 6 (udp_to "a") in
  fst (is_p2p 30001 "UDP" "a" (run (take 5 six) ∅)) = false
  ∧ hits (run six ∅) "a" = 6
  ∧ fst (is_p2p 30001 "UDP" "a" (run six ∅)) = true.
Proof. vm_compute. repeat split. Qed.

(** Five destinations: the connection to the fifth is classified. *)
Example fifth_destination :
  let four := [udp_to "a"; udp_to "b"; udp_to "c"; udp_to "d"] in
  fst (is_p2p 30001 "udp" "d" (run (take 3 four) ∅)) = false
  ∧ fst (is_p2p 30001 "udp" "e" (run four ∅)) = true
  ∧ fst (is_p2p 30000 "udp" "e" (run four ∅)) = false
  ∧ fst (is_p2p 30001 "tcp" "e" (run four ∅)) = false.
Proof. vm_compute. repeat split. Qed.

End P2P_facts.

Module Reconnections_facts.
Import Reconnections.

Lemma get_reconnections_for_tw_spec (profileid twid : string) (s : state) :
  let '(l, s1) := get_reconnections_for_tw profileid twid s in
  deref l s1 = table_read profileid twid s
  ∧ db s1 = db s
  ∧ emitted s1 = emitted s
  ∧ calls s1 = (calls s ++ [Get_reconnections_for_tw profileid twid])%list.
Proof.
  unfold get_reconnections_for_tw, table_read.
  destruct (db s) as [stored|l] eqn:E; cbn; unfold deref; cbn.
  - by rewrite lookup_insert_eq.
  - done.
Qed.

(** A flow whose original state is not REJ leaves everything as it is. *)
Lemma check_not_rej (origstate saddr daddr : string) (dport : Z)
  (uid profileid twid timestamp : string) (s : state) :
  origstate ≠ "REJ" →
  check_multiple_reconnection_attempts
    origstate saddr daddr dport uid profileid twid timestamp s = Ret s.
Proof.
  intros H. unfold check_multiple_reconnection_attempts.
  apply String.eqb_neq in H. by rewrite H.
Qed.

(** A REJ flow that leaves the attempts below 5: one read, no write, no
    evidence, and the database as it was.  Only a shared dict keeps the
    count. *)
Lemma check_rej_below (saddr daddr : string) (dport : Z)
  (uid profileid twid timestamp : string) (s : state) :
  let key := reconnection_key saddr daddr dport in
  let t := table_read profileid twid s in
  attempts t key + 1 < 5 →
  ∃ s',
    check_multiple_reconnection_attempts
      "REJ" saddr daddr dport uid profileid twid timestamp s = Ret s'
    ∧ db s' = db s
    ∧ emitted s' = emitted s
    ∧ calls s' = (calls s ++ [Get_reconnections_for_tw profileid twid])%list
    ∧ table_read profileid twid s' =
        match db s with
        | KeyValueStore _ => t
        | SharedTable _ =>
            <[key := (attempts t key + 1, (uids_of t key ++ [uid])%list)]> t
        end.
Proof.
  intros key t Hlt. unfold check_multiple_reconnection_attempts.
  cbn [String.eqb Ascii.eqb Bool.eqb negb]. fold key.
  subst t. unfold attempts, uids_of, table_read in *.
  unfold get_reconnections_for_tw.
  destruct (db s) as [stored|l] eqn:Edb.
  - set (T := default ∅ (stored !! (profileid, twid))) in *.
    unfold deref at 1. cbn [heap]. rewrite lookup_insert_eq.
    change (default ∅ (Some T)) with T.
    destruct (T !! key) as [[n us]|] eqn:E.
    + apply Nat.ltb_lt in Hlt. rewrite Hlt. eexists; split; [done|].
      cbn. repeat split.
    + eexists; split; [done|]. cbn. repeat split.
  - unfold deref at 1. cbn [heap]. unfold deref in Hlt |- * at 1 2 3.
    set (T := default ∅ (heap s !! l)) in *.
    destruct (T !! key) as [[n us]|] eqn:E.
    + apply Nat.ltb_lt in Hlt. rewrite Hlt. eexists; split; [done|].
      unfold set_item, deref. cbn. rewrite lookup_insert_eq. repeat split.
    + eexists; split; [done|].
      unfold set_item, deref. cbn. rewrite lookup_insert_eq. repeat split.
Qed.

(** A REJ flow that brings the attempts to 5 or more: the evidence carries
    the stored uids and the new one, the key is reset and the table is
    written back. *)
Lemma check_rej_fires (saddr daddr : string) (dport : Z)
  (uid profileid twid timestamp : string) (s : state) :
  let key := reconnection_key saddr daddr dport in
  let t := table_read profileid twid s in
  5 ≤ attempts t key + 1 →
  ∃ s',
    check_multiple_reconnection_attempts
      "REJ" saddr daddr dport uid profileid twid timestamp s = Ret s'
    ∧ emitted s' =
        (emitted s ++
           [multiple_reconnection_attempts profileid twid daddr
              (uids_of t key ++ [uid]) timestamp (attempts t key + 1)])%list
    ∧ calls s' =
        (calls s ++ [Get_reconnections_for_tw profileid twid;
                     SetReconnections profileid twid (<[key := (0, [])]> t)])%list
    ∧ table_read profileid twid s' = <[key := (0, [])]> t
    ∧ (∀ l, db s = SharedTable l → db s' = SharedTable l).
Proof.
  intros key t Hge. unfold check_multiple_reconnection_attempts.
  cbn [String.eqb Ascii.eqb Bool.eqb negb]. fold key.
  subst t. unfold attempts, uids_of, table_read in *.
  unfold get_reconnections_for_tw.
  destruct (db s) as [stored|l] eqn:Edb.
  - set (T := default ∅ (stored !! (profileid, twid))) in *.
    unfold deref at 1. cbn [heap]. rewrite lookup_insert_eq.
    change (default ∅ (Some T)) with T.
    destruct (T !! key) as [[n us]|] eqn:E; [|lia].
    assert (Hnlt : (n + 1 <? 5) = false) by (apply Nat.ltb_ge; lia).
    rewrite Hnlt. eexists; split; [done|].
    unfold setReconnections, set_item, emit, deref; cbn.
    rewrite !lookup_insert_eq. cbn. rewrite !insert_insert_eq.
    rewrite ?lookup_insert_eq, <- app_assoc. repeat split. intros l Hl. discriminate.
  - unfold deref at 1. cbn [heap]. unfold deref in Hge |- * at 1 2.
    set (T := default ∅ (heap s !! l)) in *.
    destruct (T !! key) as [[n us]|] eqn:E; [|lia].
    assert (Hnlt : (n + 1 <? 5) = false) by (apply Nat.ltb_ge; lia).
    rewrite Hnlt. eexists; split; [done|].
    unfold setReconnections, set_item, emit, deref; cbn.
    rewrite !lookup_insert_eq. cbn. rewrite !insert_insert_eq.
    rewrite <- app_assoc. repeat split. intros l' Hl. exact Hl.
Qed.

(** Over a key-value store that holds fewer than 4 attempts under every key
    of the window, no sequence of flows sets evidence, writes to the store or
    changes it. *)
Lemma on_flows_over_store_silent (profileid twid : string) (fs : list flow)
  (stored : gmap (string * string) (gmap string (nat * list string)))
  (s : state) :
  db s = KeyValueStore stored →
  (∀ key, attempts (default ∅ (stored !! (profileid, twid))) key + 1 < 5) →
  ∃ s' reads,
    on_flows profileid twid fs s = Ret s'
    ∧ db s' = db s
    ∧ emitted s' = emitted s
    ∧ calls s' = (calls s ++ reads)%list
    ∧ Forall (λ c, is_write c = false) reads.
Proof.
  intros Hdb Hlow. revert s Hdb.
  induction fs as [|f fs IH]; intros s Hdb.
  - exists s, []. cbn. rewrite app_nil_r. by repeat split.
  - cbn [on_flows]. unfold on_flow.
    destruct (decide (origstate f = "REJ")) as [HREJ|HREJ].
    + rewrite HREJ.
      destruct (check_rej_below (saddr f) (daddr f) (dport f) (uid f)
                  profileid twid (timestamp f) s) as (s1 & Hr & Hd & He & Hc & _).
      { unfold table_read. rewrite Hdb. apply Hlow. }
      rewrite Hr. cbn [bind].
      destruct (IH s1) as (s' & reads & Hr' & Hd' & He' & Hc' & Hw); [congruence|].
      exists s', (Get_reconnections_for_tw profileid twid :: reads).
      split; [done|]. split; [congruence|]. split; [congruence|]. split.
      * rewrite Hc', Hc, <- app_assoc. done.
      * by constructor.
    + rewrite (check_not_rej _ _ _ _ _ _ _ _ _ HREJ). cbn [bind].
      by apply IH.
Qed.

(** Claim C1, against the key-value store.  The specification expects the
    fifth REJ flow between the same endpoints to set the evidence.  Over a
    store that starts with nothing recorded, no sequence of flows, however
    long, sets any evidence: the count of a flow that stays below the
    threshold is never written back, so every flow counts from 1. *)
Theorem reconnections_over_store_never_reported
  (profileid twid : string) (fs : list flow) :
  ∃ s',
    on_flows profileid twid fs (over_store ∅) = Ret s'
    ∧ emitted s' = []
    ∧ db s' = KeyValueStore ∅.
Proof.
  destruct (on_flows_over_store_silent profileid twid fs ∅ (over_store ∅))
    as (s' & reads & Hr & Hd & He & _); [done| |by exists s'].
  intros key. unfold attempts. rewrite lookup_empty. cbn.
  rewrite lookup_empty. lia.
Qed.

(** The five flows of the specification's example, evaluated. *)
Example five_rej_flows_over_store :
  reported
    (on_flows "profile_10.0.0.1" "timewindow1"
       [rej "10.0.0.1" "10.0.0.2" 80 "uid1" "1.0";
        rej "10.0.0.1" "10.0.0.2" 80 "uid2" "2.0";
        rej "10.0.0.1" "10.0.0.2" 80 "uid3" "3.0";
        rej "10.0.0.1" "10.0.0.2" 80 "uid4" "4.0";
        rej "10.0.0.1" "10.0.0.2" 80 "uid5" "5.0"]
       (over_store ∅))
  = Ret [].
Proof. vm_compute. reflexivity. Qed.

(** Over the shared dict, REJ flows between fixed endpoints that stay below
    the threshold are counted and their uids kept, without evidence. *)
Lemma on_flows_shared_below (S D : string) (P : Z) (profileid twid : string)
  (l : list (string * string)) (s : state) (table : loc) :
  let key := reconnection_key S D P in
  db s = SharedTable table →
  attempts (table_read profileid twid s) key + length l < 5 →
  ∃ s',
    on_flows profileid twid ((λ x, rej S D P x.1 x.2) <$> l) s = Ret s'
    ∧ db s' = db s
    ∧ emitted s' = emitted s
    ∧ attempts (table_read profileid twid s') key
      = attempts (table_read profileid twid s) key + length l
    ∧ uids_of (table_read profileid twid s') key
      = (uids_of (table_read profileid twid s) key ++ l.*1)%list.
Proof.
  intros key Hdb. revert s Hdb.
  induction l as [|[u ts] l IH]; intros s Hdb Hlt.
  - exists s. cbn. rewrite app_nil_r, Nat.add_0_r. by repeat split.
  - cbn [fmap list_fmap on_flows length] in *. unfold on_flow. cbn [origstate saddr daddr dport uid timestamp rej fst snd].
    destruct (check_rej_below S D P u profileid twid ts s)
      as (s1 & Hr & Hd & He & Hc & Ht); [fold key; lia|].
    fold key in Ht. rewrite Hdb in Ht.
    rewrite Hr. cbn [bind].
    assert (Ha1 : attempts (table_read profileid twid s1) key
                  = attempts (table_read profileid twid s) key + 1).
    { rewrite Ht. unfold attempts at 1. by rewrite lookup_insert_eq. }
    assert (Hu1 : uids_of (table_read profileid twid s1) key
                  = (uids_of (table_read profileid twid s) key ++ [u])%list).
    { rewrite Ht. unfold uids_of at 1. by rewrite lookup_insert_eq. }
    destruct (IH s1) as (s' & Hr' & Hd' & He' & Ha' & Hu'); [congruence|lia|].
    exists s'. split; [done|]. split; [congruence|]. split; [congruence|].
    split; [lia|]. rewrite Hu', Hu1, <- app_assoc. done.
Qed.

Lemma on_flows_app (profileid twid : string) (fs gs : list flow) (s : state) :
  on_flows profileid twid (fs ++ gs) s
  = bind (on_flows profileid twid fs s) (on_flows profileid twid gs).
Proof.
  revert s. induction fs as [|f fs IH]; intros s; [done|].
  cbn [on_flows app]. destruct (on_flow profileid twid f s); cbn [bind]; [apply IH|done].
Qed.

Lemma table_read_over_shared (profileid twid : string)
  (t : gmap string (nat * list string)) :
  table_read profileid twid (over_shared t) = t.
Proof.
  unfold table_read, over_shared, deref. cbn. by rewrite lookup_singleton_eq.
Qed.

(** Over the shared dict the example of the specification runs as it says:
    four REJ flows set nothing, the fifth sets one evidence with the five
    uids and resets the key, the sixth counts from 1. *)
Lemma on_flows_shared_counts (S D : string) (P : Z) (profileid twid : string)
  (u1 u2 u3 u4 u5 u6 t1 t2 t3 t4 t5 t6 : string) :
  let key := reconnection_key S D P in
  let four := [rej S D P u1 t1; rej S D P u2 t2; rej S D P u3 t3;
               rej S D P u4 t4] in
  let ev := multiple_reconnection_attempts
              profileid twid D [u1; u2; u3; u4; u5] t5 5 in
  reported (on_flows profileid twid four (over_shared ∅)) = Ret []
  ∧ (∃ s5,
       on_flows profileid twid (four ++ [rej S D P u5 t5]) (over_shared ∅)
         = Ret s5
       ∧ emitted s5 = [ev]
       ∧ table_read profileid twid s5 !! key = Some (0, []))
  ∧ (∃ s6,
       on_flows profileid twid (four ++ [rej S D P u5 t5; rej S D P u6 t6])
         (over_shared ∅) = Ret s6
       ∧ emitted s6 = [ev]
       ∧ table_read profileid twid s6 !! key = Some (1, [u6])).
Proof.
  intros key four ev.
  destruct (on_flows_shared_below S D P profileid twid
              [(u1, t1); (u2, t2); (u3, t3); (u4, t4)] (over_shared ∅) 0)
    as (s4 & Hr4 & Hd4 & He4 & Ha4 & Hu4); [done| |].
  { rewrite table_read_over_shared. unfold attempts. rewrite lookup_empty. cbn. lia. }
  cbn [fmap list_fmap fst snd] in Hr4. fold four in Hr4. fold key in Ha4, Hu4.
  rewrite table_read_over_shared in Ha4, Hu4.
  unfold attempts at 2 in Ha4. unfold uids_of at 2 in Hu4.
  rewrite lookup_empty in Ha4, Hu4. cbn in Ha4, Hu4.
  destruct (check_rej_fires S D P u5 profileid twid t5 s4)
    as (s5 & Hr5 & He5 & _ & Ht5 & Hd5); [fold key; lia|].
  specialize (Hd5 0 Hd4).
  fold key in He5, Ht5. rewrite Ha4, Hu4, He4 in He5. cbn in He5.
  split; [|split].
  - unfold reported. rewrite Hr4. cbn. by rewrite He4.
  - exists s5. rewrite on_flows_app, Hr4. cbn [bind on_flows]. unfold on_flow at 1. cbn [origstate saddr daddr dport uid timestamp rej].
    rewrite Hr5. cbn [bind]. split; [done|]. split; [done|].
    rewrite Ht5. by rewrite lookup_insert_eq.
  - destruct (check_rej_below S D P u6 profileid twid t6 s5)
      as (s6 & Hr6 & Hd6 & He6 & _ & Ht6).
    { fold key. unfold attempts. rewrite Ht5, lookup_insert_eq. lia. }
    fold key in Ht6. rewrite Hd5 in Ht6.
    exists s6. rewrite on_flows_app, Hr4. cbn [bind on_flows]. unfold on_flow. cbn [origstate saddr daddr dport uid timestamp rej].
    rewrite Hr5. cbn [bind]. rewrite Hr6. cbn [bind].
    split; [done|]. split; [by rewrite He6, He5|].
    rewrite Ht6, lookup_insert_eq. unfold attempts, uids_of.
    rewrite Ht5, lookup_insert_eq. done.
Qed.

(** Claim C10.  The reconnection table is written back (setReconnections)
    only by the call that reaches the threshold and resets the counter: a
    flow whose original state is not REJ leaves the whole state, the log of
    database calls included, as it was; a REJ flow whose count stays below 5
    reads the table once, writes nothing, and leaves the database and the
    evidence unchanged; a REJ flow whose count reaches 5 reads once, sets the
    evidence and writes back the table with the key reset to (0, []). *)
Theorem reconnections_written_back_only_on_threshold
  (origstate saddr daddr : string) (dport : Z)
  (uid profileid twid timestamp : string) (s : state) :
  let key := reconnection_key saddr daddr dport in
  let t := table_read profileid twid s in
  let call :=
    check_multiple_reconnection_attempts
      origstate saddr daddr dport uid profileid twid timestamp s in
  (origstate ≠ "REJ" → call = Ret s)
  ∧ (origstate = "REJ" → attempts t key + 1 < 5 →
     ∃ s',
       call = Ret s'
       ∧ db s' = db s
       ∧ emitted s' = emitted s
       ∧ calls s' = (calls s ++ [Get_reconnections_for_tw profileid twid])%list)
  ∧ (origstate = "REJ" → 5 ≤ attempts t key + 1 →
     ∃ s',
       call = Ret s'
       ∧ calls s' =
           (calls s ++ [Get_reconnections_for_tw profileid twid;
                        SetReconnections profileid twid (<[key := (0, [])]> t)])%list
       ∧ table_read profileid twid s' = <[key := (0, [])]> t
       ∧ emitted s' =
           (emitted s ++
              [multiple_reconnection_attempts profileid twid daddr
                 (uids_of t key ++ [uid]) timestamp (attempts t key + 1)])%list).
Proof.
  intros key t call. subst call. split; [|split].
  - apply check_not_rej.
  - intros -> Hlt.
    destruct (check_rej_below saddr daddr dport uid profileid twid timestamp s Hlt)
      as (s' & Hr & Hd & He & Hc & _).
    by exists s'.
  - intros -> Hge.
    destruct (check_rej_fires saddr daddr dport uid profileid twid timestamp s Hge)
      as (s' & Hr & He & Hc & Ht & _).
    by exists s'.
Qed.

Lemma reconnections_written_back_only_on_threshold_witness :
  ∃ s',
    check_multiple_reconnection_attempts
      "REJ" "10.0.0.1" "10.0.0.2" 80 "uid1" "profile_10.0.0.1" "timewindow1"
      "1.0" (over_store ∅) = Ret s'
    ∧ db s' = db (over_store ∅)
    ∧ emitted s' = emitted (over_store ∅)
    ∧ calls s' =
        (calls (over_store ∅)
           ++ [Get_reconnections_for_tw "profile_10.0.0.1" "timewindow1"])%list.
Proof.
  apply (reconnections_written_back_only_on_threshold
           "REJ" "10.0.0.1" "10.0.0.2" 80 "uid1" "profile_10.0.0.1"
           "timewindow1" "1.0" (over_store ∅)).
  - reflexivity.
  - vm_compute. lia.
Defined.

End Reconnections_facts.

Module ConnWithoutDns_facts.
Import ConnWithoutDns.

Lemma mem_true (x : string) (l : list string) : mem x l = true ↔ x ∈ l.
Proof. unfold mem. apply bool_decide_eq_true. Qed.

Lemma mem_false (x : string) (l : list string) : mem x l = false ↔ x ∉ l.
Proof. unfold mem. apply bool_decide_eq_false. Qed.

Lemma remove_first_NoDup (x : string) (l : list string) :
  NoDup l →
  (x ∉ remove_first x l)
  ∧ NoDup (remove_first x l)
  ∧ (∀ y, y ∈ remove_first x l → y ∈ l).
Proof.
  induction 1 as [|y l Hy Hnd IH]; cbn.
  - split; [set_solver|]. split; [constructor|done].
  - destruct (String.eqb_spec y x) as [->|Hne].
    + split; [done|]. split; [done|]. set_solver.
    + destruct IH as (IH1 & IH2 & IH3). split; [set_solver|]. split.
      * constructor; [|done]. intros Hin. apply Hy. by apply IH3.
      * set_solver.
Qed.


(** The outcomes of a call for a uid that is in the list: nothing changes,
    or the evidence is set and the first occurrence of the uid leaves the
    list. *)
Lemma recheck_outcomes (e : env) (a : params) (s : state) :
  uid a ∈ connections_checked_in_conn_dns_timer_thread s →
  (after e a s = s ∧ (reaches_uid_test e a = false ∨ recheck_resolves e a = true
                       ∨ raises (is_well_known_org e (daddr a)) = true))
  ∨ (after e a s =
       State (remove_first (uid a) (connections_checked_in_conn_dns_timer_thread s))
             (timers s)
             (emitted s ++ [conn_without_dns (daddr a) (timestamp a)
                              (profileid a) (twid a) (uid a)])%list
     ∧ reaches_uid_test e a = true ∧ recheck_resolves e a = false).
Proof.
  intros Hin. apply mem_true in Hin.
  unfold after, check_connection_without_dns_resolution, reaches_uid_test,
    recheck_resolves.
  destruct (should_ignore_conn_without_dns _ _ _ _); [left; split; [done|by left]|].
  destruct (interface_or_growing_dir e); cbn [andb negb orb].
  - destruct (mem _ (our_ips e)); cbn [andb negb orb]; [|left; split; [done|by left]].
    destruct (_ <? _)%Z; [left; split; [done|by left]|].
    destruct (is_ip_resolved e (daddr a) 24); [left; split; [done|by left]|].
    rewrite Hin. cbn [negb orb].
    destruct (check_if_resolution_was_made_by_different_version _ _ _);
      [left; split; [done|right; by left]|].
    destruct (is_well_known_org e (daddr a)) as [v|x]; cbn [bind];
      [|left; split; [done|right; by right]].
    destruct (is_true v); [left; split; [done|right; by left]|by right].
  - destruct (is_ip_resolved e (daddr a) 24); [left; split; [done|by left]|].
    rewrite Hin. cbn [negb orb].
    destruct (check_if_resolution_was_made_by_different_version _ _ _);
      [left; split; [done|right; by left]|].
    destruct (is_well_known_org e (daddr a)) as [v|x]; cbn [bind];
      [|left; split; [done|right; by right]].
    destruct (is_true v); [left; split; [done|right; by left]|by right].
Qed.

(** A call for a uid that is not in the list, when it gets as far as the
    test: the uid is appended and a timer is started. *)
Lemma first_check_registers (e : env) (a : params) (s : state) :
  uid a ∉ connections_checked_in_conn_dns_timer_thread s →
  reaches_uid_test e a = true →
  after e a s =
    State (connections_checked_in_conn_dns_timer_thread s ++ [uid a])%list
          (timers s ++ [a])%list (emitted s).
Proof.
  intros Hin Hreach. apply mem_false in Hin.
  unfold reaches_uid_test in Hreach.
  apply andb_prop in Hreach as [Hreach Hres].
  apply andb_prop in Hreach as [Hign Hif].
  apply negb_true_iff in Hres, Hign, Hif.
  unfold after, check_connection_without_dns_resolution.
  rewrite Hign, Hres, Hin.
  destruct (interface_or_growing_dir e); cbn [andb negb orb] in *.
  - apply orb_false_iff in Hif as [H1 H2]. rewrite H1, H2. done.
  - done.
Qed.

(** A call that does not get as far as the test changes nothing. *)
Lemma unreached_is_silent (e : env) (a : params) (s : state) :
  reaches_uid_test e a = false → after e a s = s.
Proof.
  unfold reaches_uid_test, after, check_connection_without_dns_resolution.
  destruct (should_ignore_conn_without_dns _ _ _ _); [done|].
  destruct (interface_or_growing_dir e); cbn [andb negb orb].
  - destruct (mem _ (our_ips e)); cbn [andb negb orb]; [|done].
    destruct (_ <? _)%Z; [done|]. cbn.
    destruct (is_ip_resolved e (daddr a) 24); [done|]. discriminate.
  - destruct (is_ip_resolved e (daddr a) 24); [done|]. discriminate.
Qed.

(** The list of uids never holds a uid twice. *)
Lemma after_NoDup (e : env) (a : params) (s : state) :
  NoDup (connections_checked_in_conn_dns_timer_thread s) →
  NoDup (connections_checked_in_conn_dns_timer_thread (after e a s)).
Proof.
  intros Hnd.
  destruct (decide (uid a ∈ connections_checked_in_conn_dns_timer_thread s))
    as [Hin|Hin].
  - destruct (recheck_outcomes e a s Hin) as [[-> _]|[-> _]]; [done|].
    cbn. by apply remove_first_NoDup.
  - destruct (reaches_uid_test e a) eqn:Hr.
    + rewrite first_check_registers by done. cbn.
      apply NoDup_app. split; [done|]. split; [|apply NoDup_singleton].
      intros x Hx Hx'. apply list_elem_of_singleton in Hx'. by subst.
    + by rewrite unreached_is_silent.
Qed.

(** Claim C2, as the code has it.  A uid that waits for its re-check leaves
    the list only when the re-check sets the evidence, and then it is gone
    from the list; a call that sets no evidence, whether the condition was
    resolved or the flow was skipped, leaves the whole state as it was, the
    uid still in the list.  Once the evidence is set the uid is no longer
    known: a later call with the same uid that gets as far as the test of
    the list appends the uid again and starts a new timer. *)
Theorem pending_uid_leaves_only_with_evidence
  (e : env) (a : params) (s : state) :
  NoDup (connections_checked_in_conn_dns_timer_thread s) →
  uid a ∈ connections_checked_in_conn_dns_timer_thread s →
  (evidence_of_call e a s = [] ∧ after e a s = s)
  ∨ (evidence_of_call e a s =
       [conn_without_dns (daddr a) (timestamp a) (profileid a) (twid a) (uid a)]
     ∧ (uid a ∉ connections_checked_in_conn_dns_timer_thread (after e a s))
     ∧ (∀ v, v ≠ uid a →
          v ∈ connections_checked_in_conn_dns_timer_thread (after e a s)
          ↔ v ∈ connections_checked_in_conn_dns_timer_thread s)
     ∧ ∀ e', reaches_uid_test e' a = true →
         after e' a (after e a s) =
           State (connections_checked_in_conn_dns_timer_thread (after e a s)
                    ++ [uid a])%list
                 (timers (after e a s) ++ [a])%list
                 (emitted (after e a s))).
Proof.
  intros Hnd Hin. unfold evidence_of_call.
  destruct (recheck_outcomes e a s Hin) as [[Heq _]|[Heq _]]; rewrite Heq.
  - left. by rewrite drop_all.
  - right. cbn [emitted connections_checked_in_conn_dns_timer_thread timers].
    destruct (remove_first_NoDup (uid a) _ Hnd) as (Hout & _ & Hsub).
    split; [by rewrite drop_app_length|]. split; [done|]. split.
    + intros v Hv. split; [apply Hsub|].
      clear -Hv. induction (connections_checked_in_conn_dns_timer_thread s)
        as [|y l IH]; cbn; [done|].
      destruct (String.eqb_spec y (uid a)) as [->|Hne]; set_solver.
    + intros e' Hreach. by rewrite first_check_registers.
Qed.

Lemma pending_uid_leaves_only_with_evidence_witness :
  (evidence_of_call quiet a_flow awaiting = [] ∧ after quiet a_flow awaiting = awaiting)
  ∨ (evidence_of_call quiet a_flow awaiting =
       [conn_without_dns (daddr a_flow) (timestamp a_flow) (profileid a_flow)
          (twid a_flow) (uid a_flow)]
     ∧ (uid a_flow ∉ connections_checked_in_conn_dns_timer_thread
                       (after quiet a_flow awaiting))
     ∧ (∀ v, v ≠ uid a_flow →
          v ∈ connections_checked_in_conn_dns_timer_thread
                (after quiet a_flow awaiting)
          ↔ v ∈ connections_checked_in_conn_dns_timer_thread awaiting)
     ∧ ∀ e', reaches_uid_test e' a_flow = true →
         after e' a_flow (after quiet a_flow awaiting) =
           State (connections_checked_in_conn_dns_timer_thread
                    (after quiet a_flow awaiting) ++ [uid a_flow])%list
                 (timers (after quiet a_flow awaiting) ++ [a_flow])%list
                 (emitted (after quiet a_flow awaiting))).
Proof.
  apply (pending_uid_leaves_only_with_evidence quiet a_flow awaiting).
  - apply NoDup_singleton.
  - apply list_elem_of_singleton. reflexivity.
Defined.

(** Claim C2, as the specification words it, fails twice.  A re-check that
    finds the resolution made from the profile's other address leaves the
    uid in the list.  And after a re-check that set the evidence, a second
    call with the same uid is handled like a first one: the uid is appended
    again, a timer is started, and when that timer fires the evidence is set
    a second time. *)
Lemma pending_uid_claim_fails :
  ¬ removed_at_recheck resolved_by_other_version a_flow awaiting
  ∧ ¬ terminal_after_evidence quiet quiet a_flow awaiting
  ∧ emitted (fire quiet (after quiet a_flow (after quiet a_flow awaiting)))
    = [conn_without_dns "13.107.42.14" "1635765895.03" "profile_192.168.1.5"
         "timewindow1" "CAeDWs37BipkfP21u8";
       conn_without_dns "13.107.42.14" "1635765895.03" "profile_192.168.1.5"
         "timewindow1" "CAeDWs37BipkfP21u8"].
Proof.
  split; [|split].
  - intros H. unfold removed_at_recheck in H.
    assert (Hin : uid a_flow ∈ connections_checked_in_conn_dns_timer_thread awaiting)
      by (apply list_elem_of_singleton; reflexivity).
    apply (H Hin); [by left|].
    change (after resolved_by_other_version a_flow awaiting) with awaiting.
    exact Hin.
  - intros H. unfold terminal_after_evidence in H.
    assert (Hin : uid a_flow ∈ connections_checked_in_conn_dns_timer_thread awaiting)
      by (apply list_elem_of_singleton; reflexivity).
    specialize (H Hin).
    assert (Hev : evidence_of_call quiet a_flow awaiting ≠ []) by (by vm_compute).
    specialize (H Hev). vm_compute in H. discriminate H.
  - vm_compute. reflexivity.
Qed.

(** A re-check that finds a resolution, or the resolution made from the other
    address, or an organisation for which [is_well_known_org] answers [True],
    sets no evidence. *)
Lemma recheck_exempt (e : env) (a : params) (s : state) :
  uid a ∈ connections_checked_in_conn_dns_timer_thread s →
  recheck_resolves e a = true →
  after e a s = s ∧ evidence_of_call e a s = [].
Proof.
  intros Hin Hres. unfold evidence_of_call.
  destruct (recheck_outcomes e a s Hin) as [[Heq _]|[_ [_ Hno]]].
  - rewrite Heq. by rewrite drop_all.
  - congruence.
Qed.

(** Claim C3 at an address of the second organisation.  The uid waits for
    its re-check; the destination has no resolution by then, but its
    autonomous system is one of "microsoft", a well-known organisation.  The
    loop over the organisations tests "google" only and returns, so the
    re-check sets the evidence. *)
Theorem recheck_reports_address_of_later_org :
  uid a_flow ∈ connections_checked_in_conn_dns_timer_thread awaiting
  ∧ matches_some_org microsoft_asn (daddr a_flow) = true
  ∧ is_well_known_org microsoft_asn (daddr a_flow) = Ret (PyBool false)
  ∧ evidence_of_call microsoft_asn a_flow awaiting
    = [conn_without_dns "13.107.42.14" "1635765895.03" "profile_192.168.1.5"
         "timewindow1" "CAeDWs37BipkfP21u8"].
Proof.
  split; [apply list_elem_of_singleton; reflexivity|].
  split; [reflexivity|]. split; [reflexivity|]. vm_compute. reflexivity.
Qed.





(** An address that the first organisation claims by its range is
    well-known, whatever the list holds after it. *)
Example first_org_match_is_well_known :
  is_well_known_org
    (Env (λ _, false) [] "pcap" (λ _, false) (λ _, false) false [] 0%Z
         (λ _ _, false) (λ _, None) (λ _, ResolutionDict None) (λ _, None)
         ["google"; "microsoft"]
         (λ _ _, false) (λ _ _, false)
         (λ ip org, String.eqb ip "8.8.8.8" && String.eqb org "google"))
    "8.8.8.8"
  = Ret (PyBool true).
Proof. reflexivity. Qed.

End ConnWithoutDns_facts.

Module DeviceChangingIps_facts.
Import DeviceChangingIps.

Example dotted_examples :
  ipv4 dotted "192.168.1.5" = true ∧ is_private_ip dotted "192.168.1.5" = true
  ∧ ipv4 dotted "8.8.8.8" = true ∧ is_private_ip dotted "8.8.8.8" = false
  ∧ ipv4 dotted "2001:db8::1" = false ∧ ipv4 dotted "256.1.1.1" = false
  ∧ is_private_ip dotted "172.20.0.1" = true
  ∧ is_private_ip dotted "172.32.0.1" = false.
Proof. vm_compute. repeat split. Qed.





End DeviceChangingIps_facts.

Module MultiplePorts_facts.
Import MultiplePorts.

(** In the branch of the profile as client, an address the aggregates do not
    hold ends the check without evidence and without an exception. *)
Lemma client_branch_miss (e : env) (saddr daddr appproto : string) (dport : Z)
  (timestamp profileid twid : string) :
  split "_" profileid !! 1 = Some saddr →
  get_data_from_profile_tw e profileid twid
    "Dst" "Established" "TCP" "Client" "IPs" !! daddr = None →
  detect_connection_to_multiple_ports
    e saddr daddr "tcp" "Established" appproto dport timestamp profileid twid
  = Ret [].
Proof.
  intros Hip Hmiss. unfold detect_connection_to_multiple_ports.
  cbn [String.eqb Ascii.eqb Bool.eqb negb orb].
  destruct (match (if truthy appproto then _ else _) with
            | Some n => truthy n | None => false end); [done|].
  rewrite Hip, String.eqb_refl, Hmiss. done.
Qed.

(** In the branch of the profile as server, an address the aggregates do not
    hold makes the lookup raise. *)
Lemma server_branch_miss (e : env) (saddr daddr : string) (dport : Z)
  (timestamp profileid twid ip : string) :
  get_port_info e (pretty dport ++ "/" ++ "tcp") = None →
  split "_" profileid !! 1 = Some ip →
  ip ≠ saddr →
  last_field (split "_" profileid) = daddr →
  get_data_from_profile_tw e profileid twid
    "Src" "Established" "TCP" "Server" "IPs" !! saddr = None →
  detect_connection_to_multiple_ports
    e saddr daddr "tcp" "Established" "" dport timestamp profileid twid
  = Raise KeyError.
Proof.
  intros Hport Hip Hne Hlast Hmiss. unfold detect_connection_to_multiple_ports.
  cbn [String.eqb Ascii.eqb Bool.eqb negb orb truthy].
  rewrite Hport, Hip. apply String.eqb_neq in Hne. rewrite Hne.
  rewrite Hlast, String.eqb_refl, Hmiss. done.
Qed.

(** Claim C7 in the branch of the profile as server.  The flow comes from
    "1.2.3.4" to the profile's own address, over an established TCP
    connection to an unknown port; the aggregates of the profile do not hold
    the source.  The lookup raises [KeyError]; the branch of the profile as
    client tests for the address first and returns. *)
Theorem server_branch_miss_raises :
  detect_connection_to_multiple_ports no_aggregates
    "1.2.3.4" "10.0.0.2" "tcp" "Established" "" 4444 "1.0"
    "profile_10.0.0.2" "timewindow1"
  = Raise KeyError
  ∧ detect_connection_to_multiple_ports no_aggregates
      "10.0.0.2" "1.2.3.4" "tcp" "Established" "" 4444 "1.0"
      "profile_10.0.0.2" "timewindow1"
    = Ret [].
Proof. vm_compute. split; reflexivity. Qed.

Example client_branch_two_ports :
  detect_connection_to_multiple_ports two_ports
    "10.0.0.2" "10.0.0.9" "tcp" "Established" "" 8080 "1.0"
    "profile_10.0.0.2" "timewindow1"
  = Ret [connection_to_multiple_ports "profile_10.0.0.2" "timewindow1"
           ["uid1"; "uid2"] "1.0" ["22"; "8080"] "10.0.0.9" "10.0.0.2"].
Proof. vm_compute. reflexivity. Qed.

End MultiplePorts_facts.

Module Dga_facts.
Import Dga.

(** A counted query that leaves the accumulated count below the threshold
    is appended, with its uid, and sets no evidence. *)
Lemma on_txn_below (wl : string → bool) (profileid twid : string)
  (s : state) (t : txn) :
  counted wl t = true →
  length (accumulated profileid twid s).1 + 1 < nxdomains_threshold s →
  let s' := on_txn wl profileid twid s t in
  emitted s' = emitted s
  ∧ nxdomains_threshold s' = nxdomains_threshold s
  ∧ nxdomains s' !! (profileid, twid)
    = Some (((accumulated profileid twid s).1 ++ [query t])%list,
            ((accumulated profileid twid s).2 ++ [uid t])%list).
Proof.
  intros Hc Hlt. unfold counted in Hc.
  repeat (apply andb_prop in Hc as [Hc ?]).
  apply String.eqb_eq in Hc. apply negb_true_iff in H, H0, H1.
  unfold on_txn, detect_dga, accumulated in *.
  rewrite Hc, H, H0, H1. cbn [String.eqb Ascii.eqb Bool.eqb negb orb].
  destruct (default ([], []) (nxdomains s !! (profileid, twid))) as [qs us] eqn:E.
  cbn [fst snd] in *. rewrite length_app. cbn [length].
  assert (Hn : (nxdomains_threshold s <=? length qs + 1) = false)
    by (apply Nat.leb_gt; lia).
  rewrite Hn. cbn. by rewrite lookup_insert_eq.
Qed.

(** A counted query that brings the accumulated count to the threshold sets
    one evidence, with the count and every accumulated uid, and leaves the
    window with two empty lists. *)
Lemma on_txn_fires (wl : string → bool) (profileid twid : string)
  (s : state) (t : txn) :
  counted wl t = true →
  nxdomains_threshold s ≤ length (accumulated profileid twid s).1 + 1 →
  let s' := on_txn wl profileid twid s t in
  emitted s' =
    (emitted s ++
       [dga (length (accumulated profileid twid s).1 + 1) (stime t)
          profileid twid ((accumulated profileid twid s).2 ++ [uid t])])%list
  ∧ nxdomains s' !! (profileid, twid) = Some ([], [])
  ∧ detect_dga wl (rcode_name t) (query t) (stime t) profileid twid (uid t) s
    = (PyBool true, s').
Proof.
  intros Hc Hge. unfold counted in Hc.
  repeat (apply andb_prop in Hc as [Hc ?]).
  apply String.eqb_eq in Hc. apply negb_true_iff in H, H0, H1.
  unfold on_txn, detect_dga, accumulated in *.
  rewrite Hc, H, H0, H1. cbn [String.eqb Ascii.eqb Bool.eqb negb orb].
  destruct (default ([], []) (nxdomains s !! (profileid, twid))) as [qs us] eqn:E.
  cbn [fst snd] in *. rewrite length_app. cbn [length].
  assert (Hn : (nxdomains_threshold s <=? length qs + 1) = true)
    by (apply Nat.leb_le; lia).
  rewrite Hn. cbn. by rewrite lookup_insert_eq.
Qed.

Lemma on_txns_snoc (wl : string → bool) (profileid twid : string)
  (ts : list txn) (t : txn) (s : state) :
  on_txns wl profileid twid (ts ++ [t]) s
  = on_txn wl profileid twid (on_txns wl profileid twid ts s) t.
Proof. unfold on_txns. by rewrite foldl_app. Qed.

(** Counted queries that stay below the threshold accumulate in order. *)
Lemma on_txns_below (wl : string → bool) (profileid twid : string)
  (ts : list txn) (s : state) :
  Forall (λ t, counted wl t = true) ts →
  length (accumulated profileid twid s).1 + length ts < nxdomains_threshold s →
  let s' := on_txns wl profileid twid ts s in
  emitted s' = emitted s
  ∧ nxdomains_threshold s' = nxdomains_threshold s
  ∧ accumulated profileid twid s'
    = (((accumulated profileid twid s).1 ++ (query <$> ts))%list,
       ((accumulated profileid twid s).2 ++ (uid <$> ts))%list).
Proof.
  induction ts as [|t ts IH] using rev_ind; intros Hall Hlt.
  - cbn. rewrite !app_nil_r. split; [done|]. split; [done|].
    by destruct (accumulated profileid twid s).
  - apply Forall_app in Hall as [Hts Ht]. rewrite Forall_singleton in Ht.
    rewrite length_app in Hlt. cbn [length] in Hlt.
    destruct IH as (He & Hth & Hacc); [done|lia|].
    rewrite on_txns_snoc.
    destruct (on_txn_below wl profileid twid (on_txns wl profileid twid ts s) t Ht)
      as (He' & Hth' & Hacc').
    { rewrite Hacc, Hth. cbn [fst]. rewrite length_app, length_fmap. lia. }
    cbn zeta. split; [congruence|]. split; [congruence|].
    unfold accumulated at 1. rewrite Hacc', Hacc. cbn [default from_option fst snd]. unfold id.
    by rewrite !fmap_app, <- !app_assoc.
Qed.

(** Claim C4.  From a window without an entry and with the threshold at 10:
    however many of the first nine NXDOMAIN queries have been handled, no
    evidence is set; after the nine, the window holds their domains and
    uids in order; the tenth sets exactly one evidence, with the count 10
    and the ten uids, and leaves the window with two empty lists. *)
Theorem detect_dga_tenth_query (wl : string → bool) (profileid twid : string)
  (ts : list txn) (t10 : txn) (s : state) :
  nxdomains_threshold s = 10 →
  nxdomains s !! (profileid, twid) = None →
  length ts = 9 →
  Forall (λ t, counted wl t = true) ts →
  counted wl t10 = true →
  let s9 := on_txns wl profileid twid ts s in
  let s10 := on_txn wl profileid twid s9 t10 in
  (∀ k, emitted (on_txns wl profileid twid (take k ts) s) = emitted s)
  ∧ nxdomains s9 !! (profileid, twid) = Some (query <$> ts, uid <$> ts)
  ∧ emitted s10 =
      (emitted s ++
         [dga 10 (stime t10) profileid twid ((uid <$> ts) ++ [uid t10])])%list
  ∧ nxdomains s10 !! (profileid, twid) = Some ([], []).
Proof.
  intros Hth Hnone Hlen Hall Ht10 s9 s10.
  assert (Hacc0 : accumulated profileid twid s = ([], []))
    by (unfold accumulated; by rewrite Hnone).
  assert (Hpre : ∀ k,
    let sk := on_txns wl profileid twid (take k ts) s in
    emitted sk = emitted s ∧ nxdomains_threshold sk = nxdomains_threshold s
    ∧ accumulated profileid twid sk
      = (query <$> take k ts, uid <$> take k ts)).
  { intros k.
    destruct (on_txns_below wl profileid twid (take k ts) s) as (He & Ht & Ha).
    - by apply Forall_take.
    - rewrite Hacc0, Hth. cbn [fst length]. pose proof (length_take_le ts k) as Hk.
      rewrite length_take. lia.
    - rewrite Hacc0 in Ha. by cbn in *. }
  destruct (Hpre 9) as (He9 & Hth9 & Ha9).
  rewrite take_ge in He9, Hth9, Ha9 by lia. fold s9 in He9, Hth9, Ha9.
  split; [intros k; apply Hpre|]. split.
  - subst s9. destruct ts as [|t ts] using rev_ind; [discriminate|].
    clear IHts. rewrite on_txns_snoc.
    apply Forall_app in Hall as [Hts Ht]. rewrite Forall_singleton in Ht.
    rewrite length_app in Hlen. cbn in Hlen.
    destruct (on_txns_below wl profileid twid ts s) as (He & Hth' & Ha);
      [done|rewrite Hacc0, Hth; cbn; lia|].
    destruct (on_txn_below wl profileid twid (on_txns wl profileid twid ts s) t Ht)
      as (_ & _ & Hl).
    { rewrite Ha, Hth', Hacc0, Hth. cbn. rewrite length_fmap. lia. }
    cbn zeta in Hl. rewrite Hl, Ha, Hacc0. cbn. by rewrite !fmap_app.
  - destruct (on_txn_fires wl profileid twid s9 t10 Ht10) as (He & Hn & _).
    { rewrite Ha9, Hth9, Hth. cbn. rewrite length_fmap. lia. }
    fold s10 in He, Hn. split; [|done].
    rewrite He, He9, Ha9. cbn [fst snd]. rewrite length_fmap, Hlen. done.
Qed.

Lemma detect_dga_tenth_query_witness :
  (∀ k, emitted (on_txns (λ _, false) "profile_192.168.1.1" "timewindow1"
                   (take k nine) fresh) = emitted fresh)
  ∧ nxdomains (on_txns (λ _, false) "profile_192.168.1.1" "timewindow1"
                 nine fresh)
      !! ("profile_192.168.1.1", "timewindow1")
    = Some (query <$> nine, uid <$> nine)
  ∧ emitted (on_txn (λ _, false) "profile_192.168.1.1" "timewindow1"
               (on_txns (λ _, false) "profile_192.168.1.1" "timewindow1"
                  nine fresh)
               (nx "example10.com"))
    = (emitted fresh ++
         [dga 10 (stime (nx "example10.com")) "profile_192.168.1.1"
            "timewindow1" ((uid <$> nine) ++ [uid (nx "example10.com")])])%list
  ∧ nxdomains (on_txn (λ _, false) "profile_192.168.1.1" "timewindow1"
                 (on_txns (λ _, false) "profile_192.168.1.1" "timewindow1"
                    nine fresh)
                 (nx "example10.com"))
      !! ("profile_192.168.1.1", "timewindow1")
    = Some ([], []).
Proof.
  apply (detect_dga_tenth_query (λ _, false) "profile_192.168.1.1"
           "timewindow1" nine (nx "example10.com") fresh).
  - reflexivity.
  - reflexivity.
  - reflexivity.
  - repeat constructor.
  - reflexivity.
Defined.

(** The returned values and the counter of the three cases of
    [test_detect_dga_no_alert] and of [test_detect_dga_alert]. *)
Example detect_dga_as_tested :
  detect_dga (λ _, false) "NOERROR" "example.com" "1635765895.037696"
    "profile_192.168.1.1" "timewindow1" "CAeDWs37BipkfP21u8" fresh
  = (PyBool false, fresh)
  ∧ detect_dga (λ _, false) "NXDOMAIN" "example.com" "1635765895.037696"
      "profile_192.168.1.1" "timewindow1" "CAeDWs37BipkfP21u8" fresh
    = (PyBool false,
       State {[ ("profile_192.168.1.1", "timewindow1")
                  := (["example.com"], ["CAeDWs37BipkfP21u8"]) ]} 10 [])
  ∧ (detect_dga (λ _, false) "NXDOMAIN" "example9.com" "1635765895.037696"
       "profile_192.168.1.1" "timewindow1" "CAeDWs37BipkfP21u8"
       (on_txns (λ _, false) "profile_192.168.1.1" "timewindow1"
          (take 8 nine) fresh)).1
    = PyNone
  ∧ (detect_dga (λ _, false) "NXDOMAIN" "example10.com" "1635765895.037696"
       "profile_192.168.1.1" "timewindow1" "CAeDWs37BipkfP21u8"
       (on_txns (λ _, false) "profile_192.168.1.1" "timewindow1" nine fresh)).1
    = PyBool true.
Proof. vm_compute. repeat split. Qed.

End Dga_facts.

Module InvalidDnsAnswers_facts.
Import InvalidDnsAnswers.

Lemma check_snoc (invalid : string → bool) (domain : string)
  (answers : list string) (answer profileid twid stime uid : string)
  (s : state) :
  check_invalid_dns_answers invalid domain (answers ++ [answer])
    profileid twid stime uid s
  = let s1 := check_invalid_dns_answers invalid domain answers
                profileid twid stime uid s in
    if invalid answer && negb (String.eqb domain "localhost") then
      delete_dns_resolution answer
        (emit (invalid_dns_answer domain answer profileid twid stime uid) s1)
    else s1.
Proof. unfold check_invalid_dns_answers. by rewrite foldl_app. Qed.

(** Claim C8.  For a query other than "localhost": one evidence per invalid
    answer, in the order of the answers and naming the answer; one deletion
    per invalid answer; afterwards no invalid answer of the list has a cached
    resolution, and the cached resolutions of all other answers are as they
    were.  For the query "localhost" the state is left as it was.  Valid
    answers cause neither an evidence nor a deletion. *)
Theorem check_invalid_dns_answers_effects (invalid : string → bool)
  (domain : string) (answers : list string)
  (profileid twid stime uid : string) (s : state) :
  let s' := check_invalid_dns_answers invalid domain answers
              profileid twid stime uid s in
  let bad := filter (λ a, invalid a = true) answers in
  (domain = "localhost" → s' = s)
  ∧ (domain ≠ "localhost" →
     emitted s' =
       (emitted s ++
          ((λ a, invalid_dns_answer domain a profileid twid stime uid) <$> bad))%list
     ∧ deleted s' = (deleted s ++ bad)%list
     ∧ (∀ a, a ∈ bad → dns_resolutions s' !! a = None)
     ∧ (∀ a, a ∉ bad → dns_resolutions s' !! a = dns_resolutions s !! a)).
Proof.
  intros s' bad. subst s' bad. split.
  - intros ->. unfold check_invalid_dns_answers.
    induction answers as [|a answers IH] using rev_ind; [done|].
    rewrite foldl_app. cbn. by rewrite andb_false_r.
  - intros Hne. apply String.eqb_neq in Hne.
    induction answers as [|a answers IH] using rev_ind.
    + cbn. rewrite !app_nil_r. repeat split; try done. intros a Ha. set_solver.
    + destruct IH as (He & Hd & Hgone & Hkept).
      rewrite check_snoc, Hne, filter_app, filter_cons, filter_nil.
      cbn [negb]. rewrite andb_true_r.
      destruct (invalid a) eqn:Ha.
      * rewrite decide_True by done. cbn -[check_invalid_dns_answers].
        rewrite He, Hd, fmap_app, <- !app_assoc. cbn -[check_invalid_dns_answers].
        split; [done|]. split; [done|]. split.
        -- intros x Hx. apply elem_of_app in Hx as [Hx|Hx].
           ++ destruct (decide (x = a)) as [->|Hxa].
              ** apply lookup_delete_eq.
              ** rewrite lookup_delete_ne by done. by apply Hgone.
           ++ apply list_elem_of_singleton in Hx as ->. apply lookup_delete_eq.
        -- intros x Hx. rewrite lookup_delete_ne by set_solver.
           apply Hkept. set_solver.
      * rewrite decide_False by congruence. rewrite !app_nil_r. done.
Qed.

Lemma check_invalid_dns_answers_effects_witness :
  emitted (check_invalid_dns_answers loopback_or_unspecified "example.com"
             ["127.0.0.1"] "profileid_1.1.1.1" "timewindow1" "1234567890"
             "uid1" (State {[ "127.0.0.1" := ["example.com"] ]} [] []))
  = [invalid_dns_answer "example.com" "127.0.0.1" "profileid_1.1.1.1"
       "timewindow1" "1234567890" "uid1"].
Proof.
  apply (check_invalid_dns_answers_effects loopback_or_unspecified
           "example.com" ["127.0.0.1"] "profileid_1.1.1.1" "timewindow1"
           "1234567890" "uid1" (State {[ "127.0.0.1" := ["example.com"] ]} [] [])).
  discriminate.
Defined.

(** The three cases of [test_check_invalid_dns_answers_call_counts]: the
    numbers of evidence calls and of deletions. *)
Example check_invalid_dns_answers_as_tested :
  let count (domain : string) (answers : list string) :=
    let s' := check_invalid_dns_answers loopback_or_unspecified domain answers
                "profileid_1.1.1.1" "timewindow1" "1234567890" "uid1"
                (State {[ "127.0.0.1" := ["example.com"] ]} [] []) in
    (length (emitted s'), length (deleted s')) in
  count "example.com" ["127.0.0.1"] = (1, 1)
  ∧ count "example.com" ["8.8.8.8"] = (0, 0)
  ∧ count "localhost" ["127.0.0.1"] = (0, 0).
Proof. vm_compute. repeat split. Qed.

End InvalidDnsAnswers_facts.

(** * Further properties *)

Module UnknownPort_facts.
Import P2P UnknownPort.

(** [is_p2p] never drops a destination. *)
Lemma is_p2p_dom (dport : Z) (proto daddr : string) (m : gmap string nat) :
  dom m ⊆ dom (snd (is_p2p dport proto daddr m)).
Proof.
  destruct (String.eqb (lower proto) "udp" && (30000 <? dport)%Z) eqn:H.
  - destruct (P2P_facts.is_p2p_high dport proto daddr m H) as (_ & -> & _).
    set_solver.
  - by rewrite P2P_facts.is_p2p_low.
Qed.

Lemma is_p2p_size (dport : Z) (proto daddr : string) (m : gmap string nat) :
  size m ≤ size (snd (is_p2p dport proto daddr m)).
Proof.
  rewrite <- !size_dom. apply subseteq_size, is_p2p_dom.
Qed.

(** With five destinations on record, a high-port UDP connection is P2P. *)
Lemma is_p2p_sticky (dport : Z) (proto daddr : string) (m : gmap string nat) :
  5 ≤ size m →
  String.eqb (lower proto) "udp" && (30000 <? dport)%Z = true →
  fst (is_p2p dport proto daddr m) = true.
Proof.
  intros Hsz H.
  destruct (P2P_facts.is_p2p_high dport proto daddr m H) as (-> & _ & _).
  apply bool_decide_eq_true. right.
  transitivity (size (dom m)); [by rewrite size_dom|].
  apply subseteq_size. set_solver.
Qed.

Lemma run_size (cs : list conn) (m : gmap string nat) :
  size m ≤ size (run cs m).
Proof.
  revert m. induction cs as [|c cs IH]; intros m; [done|].
  cbn. etransitivity; [|apply IH]. apply is_p2p_size.
Qed.

(** Property X1.
    Once five destinations are on record, every later UDP connection to a
    port above 30000 is classified as P2P, to whatever destination and
    whatever connections came in between. *)
Theorem p2p_classification_is_permanent
  (cs : list conn) (c : conn) (m : gmap string nat) :
  5 ≤ size m →
  high_udp c = true →
  fst (is_p2p (c_dport c) (c_proto c) (c_daddr c) (run cs m)) = true.
Proof.
  intros Hsz Hc. apply is_p2p_sticky; [|exact Hc].
  etransitivity; [exact Hsz|apply run_size].
Qed.

Lemma p2p_classification_is_permanent_witness :
  fst (is_p2p 40000 "udp" "a"
         (run [Conn 80 "tcp" "z"; udp_to "a"]
            (run [udp_to "a"; udp_to "b"; udp_to "c"; udp_to "d"; udp_to "e"] ∅)))
  = true.
Proof.
  apply (p2p_classification_is_permanent
           [Conn 80 "tcp" "z"; udp_to "a"] (Conn 40000 "udp" "a")
           (run [udp_to "a"; udp_to "b"; udp_to "c"; udp_to "d"; udp_to "e"] ∅)).
  - vm_compute. lia.
  - reflexivity.
Defined.

Lemma is_p2p_counts (dport : Z) (proto daddr : string) (m : gmap string nat) :
  (∀ d n, m !! d = Some n → 1 ≤ n ≤ 6) →
  ∀ d n, snd (is_p2p dport proto daddr m) !! d = Some n → 1 ≤ n ≤ 6.
Proof.
  intros Hm. unfold is_p2p.
  destruct (_ && _); [|done].
  destruct (m !! daddr) as [n|] eqn:E.
  - destruct (6 <=? n) eqn:L; [done|]. apply Nat.leb_gt in L.
    intros d k. cbn. destruct (decide (d = daddr)) as [->|Hne].
    + rewrite lookup_insert_eq. intros [= <-]. specialize (Hm _ _ E). lia.
    + rewrite lookup_insert_ne by done. apply Hm.
  - intros d k. cbn. destruct (decide (d = daddr)) as [->|Hne].
    + rewrite lookup_insert_eq. intros [= <-]. lia.
    + rewrite lookup_insert_ne by done. apply Hm.
Qed.

(** Property X2.
    From the empty counter, after any connections whatever, every count on
    record is between 1 and 6, and only destinations of UDP connections to
    ports above 30000 are on record. *)
Theorem p2p_counter_stays_in_range (cs : list conn) :
  (∀ d n, run cs ∅ !! d = Some n → 1 ≤ n ≤ 6)
  ∧ dom (run cs ∅) ⊆ destinations (filter (λ c, high_udp c = true) cs).
Proof.
  induction cs as [|c cs [IH1 IH2]] using rev_ind.
  - split; [intros d n; unfold run; cbn; by rewrite lookup_empty|set_solver].
  - rewrite P2P_facts.run_snoc. unfold step. split.
    + by apply is_p2p_counts.
    + rewrite filter_app, filter_cons, filter_nil.
      destruct (high_udp c) eqn:Hc.
      * rewrite decide_True by done.
        destruct (P2P_facts.is_p2p_high (c_dport c) (c_proto c) (c_daddr c)
                    (run cs ∅) Hc) as (_ & -> & _).
        rewrite P2P_facts.destinations_snoc. set_solver.
      * rewrite decide_False by congruence.
        rewrite P2P_facts.is_p2p_low by exact Hc. rewrite app_nil_r. exact IH2.
Qed.

Lemma total_hits_insert_new (m : gmap string nat) (d : string) (k : nat) :
  m !! d = None → total_hits (<[d := k]> m) = k + total_hits m.
Proof.
  intros Hd. unfold total_hits.
  rewrite map_fold_insert_L; [done| |done]. intros; lia.
Qed.

Lemma total_hits_insert_old (m : gmap string nat) (d : string) (n k : nat) :
  m !! d = Some n → total_hits (<[d := k]> m) + n = k + total_hits m.
Proof.
  intros Hd.
  rewrite <- (insert_delete_eq m d k).
  rewrite <- (insert_delete_id m d n Hd) at 2.
  rewrite !total_hits_insert_new by apply lookup_delete_eq. lia.
Qed.

Lemma total_hits_bound (m : gmap string nat) :
  (∀ d n, m !! d = Some n → n ≤ 6) → total_hits m ≤ 6 * size m.
Proof.
  induction m as [|d n m Hd IH] using map_ind; intros Hm.
  - unfold total_hits. by rewrite map_fold_empty.
  - rewrite total_hits_insert_new, map_size_insert_None by done.
    assert (n ≤ 6) by (apply (Hm d); by rewrite lookup_insert_eq).
    assert (total_hits m ≤ 6 * size m).
    { apply IH. intros d' n' Hd'. apply (Hm d').
      rewrite lookup_insert_ne; [done|]. intros ->. congruence. }
    lia.
Qed.

(** A high-port UDP connection that is not classified: it is counted, and
    fewer than five destinations are on record afterwards. *)
Lemma is_p2p_not_classified (dport : Z) (proto daddr : string)
  (m : gmap string nat) :
  String.eqb (lower proto) "udp" && (30000 <? dport)%Z = true →
  fst (is_p2p dport proto daddr m) = false →
  size (snd (is_p2p dport proto daddr m)) < 5
  ∧ total_hits (snd (is_p2p dport proto daddr m)) = total_hits m + 1.
Proof.
  intros H. unfold is_p2p. rewrite H.
  destruct (m !! daddr) as [n|] eqn:E.
  - destruct (6 <=? n); [discriminate|]. cbn [fst snd].
    intros Hf. apply Nat.leb_gt in Hf. split; [done|].
    pose proof (total_hits_insert_old m daddr n (n + 1) E). lia.
  - cbn [fst snd]. intros Hf. apply Nat.leb_gt in Hf. split; [done|].
    rewrite total_hits_insert_new by done. lia.
Qed.

Lemma is_p2p_total_hits (dport : Z) (proto daddr : string)
  (m : gmap string nat) :
  total_hits m ≤ total_hits (snd (is_p2p dport proto daddr m)).
Proof.
  unfold is_p2p. destruct (_ && _); [|done].
  destruct (m !! daddr) as [n|] eqn:E.
  - destruct (6 <=? n); [done|]. cbn [snd].
    pose proof (total_hits_insert_old m daddr n (n + 1) E). lia.
  - cbn [snd]. rewrite total_hits_insert_new by done. lia.
Qed.

(** One call of [check_unknown_port]: the counts stay in range, the sum of
    the hits does not decrease, and a new evidence about a UDP flow to a
    port above 30000 comes with one more hit and fewer than five
    destinations. *)
Lemma check_unknown_port_step (e : env) (dport : option Z)
  (proto daddr profileid twid uid timestamp state : string)
  (s : UnknownPort.state) :
  let s' := snd (check_unknown_port e dport proto daddr profileid twid uid
                   timestamp state s) in
  (∀ d n, p2p_daddrs s !! d = Some n → 1 ≤ n ≤ 6) →
  (∀ d n, p2p_daddrs s' !! d = Some n → 1 ≤ n ≤ 6)
  ∧ total_hits (p2p_daddrs s) ≤ total_hits (p2p_daddrs s')
  ∧ (udp_evidence s' = udp_evidence s
     ∨ (udp_evidence s' = udp_evidence s + 1
        ∧ total_hits (p2p_daddrs s') = total_hits (p2p_daddrs s) + 1
        ∧ size (p2p_daddrs s') < 5)).
Proof.
  intros s' Hm. subst s'. unfold check_unknown_port.
  destruct dport as [dport|]; [|by auto].
  destruct (dport =? 0)%Z; [by auto|].
  destruct (negb _); [by auto|].
  destruct (match get_port_info e _ with Some n => truthy n | None => false end);
    [by auto|].
  destruct (port_belongs_to_an_org _ _ _ _); [by auto|].
  destruct (contains "icmp" proto); [by auto|].
  pose proof (is_p2p_counts dport proto daddr _ Hm) as Hc.
  pose proof (is_p2p_total_hits dport proto daddr (p2p_daddrs s)) as Ht.
  destruct (is_p2p dport proto daddr (p2p_daddrs s)) as [p2p d] eqn:Ep.
  cbn [fst snd] in *.
  destruct p2p; [by auto|]. destruct (is_ftp_port e dport); [by auto|].
  unfold udp_evidence.
  cbn [snd p2p_daddrs emitted]. split; [done|]. split; [done|].
  rewrite filter_app, length_app, filter_cons, filter_nil. cbn [about_high_udp].
  destruct (String.eqb (lower proto) "udp" && (30000 <? dport)%Z) eqn:H.
  - right. rewrite decide_True by done. split; [done|].
    destruct (is_p2p_not_classified dport proto daddr (p2p_daddrs s) H)
      as [Hsz Hth]; [by rewrite Ep|].
    rewrite Ep in Hsz, Hth. cbn in Hsz, Hth. done.
  - left. rewrite decide_False by congruence. cbn. lia.
Qed.

(** Property X3.
    However many flows an analyzer handles, and whatever the store answers
    about each, [check_unknown_port] sets the unknown-port evidence for at
    most 24 UDP flows to ports above 30000: each such evidence comes with a
    new hit in the P2P counter, which holds at most 6 hits for each of at
    most 4 destinations as long as a flow is not classified as P2P. *)
Theorem unknown_port_udp_evidence_is_bounded (fs : list (env * flow)) :
  udp_evidence (on_flows fs (State ∅ [])) ≤ 24.
Proof.
  assert (Hinv :
    (∀ d n, p2p_daddrs (on_flows fs (State ∅ [])) !! d = Some n → 1 ≤ n ≤ 6)
    ∧ udp_evidence (on_flows fs (State ∅ []))
        ≤ total_hits (p2p_daddrs (on_flows fs (State ∅ [])))
    ∧ udp_evidence (on_flows fs (State ∅ [])) ≤ 24).
  { induction fs as [|[e f] fs (IH1 & IH2 & IH3)] using rev_ind.
    - cbn. split; [intros d n; by rewrite lookup_empty|]. split; [done|lia].
    - unfold on_flows in *. rewrite foldl_app. cbn [foldl on_flow].
      destruct (check_unknown_port_step e (f_dport f) (f_proto f) (f_daddr f)
                  (f_profileid f) (f_twid f) (f_uid f) (f_timestamp f)
                  (f_state f) (foldl on_flow (State ∅ []) fs) IH1)
        as (H1 & H2 & [H3|(H3 & H4 & H5)]).
      + split; [done|]. split; lia.
      + split; [done|]. split; [lia|].
        assert (total_hits (p2p_daddrs (snd (check_unknown_port e (f_dport f)
                  (f_proto f) (f_daddr f) (f_profileid f) (f_twid f) (f_uid f)
                  (f_timestamp f) (f_state f) (foldl on_flow (State ∅ []) fs))))
                ≤ 6 * size (p2p_daddrs (snd (check_unknown_port e (f_dport f)
                  (f_proto f) (f_daddr f) (f_profileid f) (f_twid f) (f_uid f)
                  (f_timestamp f) (f_state f) (foldl on_flow (State ∅ []) fs))))).
        { apply total_hits_bound. intros d n Hd. by apply (H1 d n). }
        lia. }
  apply Hinv.
Qed.

(** Twenty-four evidence entries are reached: six flows to each of four
    destinations; a twenty-fifth flow adds none. *)
Example unknown_port_udp_evidence_reaches_24 :
  let to d := (nothing_known,
               Flow (Some 40000%Z) "udp" d "profile_10.0.0.1" "timewindow1"
                    "uid" "1.0" "Established") in
  let six d := replicate 6 (to d) in
  let all := (six "a" ++ six "b" ++ six "c" ++ six "d")%list in
  length (emitted (on_flows all (State ∅ []))) = 24
  ∧ length (emitted (on_flows (all ++ [to "a"; to "e"]) (State ∅ []))) = 24.
Proof. vm_compute. split; reflexivity. Qed.

(** Property X4.
    [port_belongs_to_an_org] tries every address, every range and every
    organisation name of the port: it answers [True] exactly when the
    destination is one of the listed addresses, or lies in one of the listed
    ranges, or one of the organisation names, in lower case, occurs in the
    vendor of the source or destination MAC or in the identification of the
    destination, or owns the destination's address. *)
Theorem port_belongs_to_an_org_tries_all
  (e : env) (daddr portproto profileid : string) :
  port_belongs_to_an_org e daddr portproto profileid = true
  ↔ ∃ info,
      get_organization_of_port e portproto = Some info
      ∧ (daddr ∈ ip info
         ∨ (∃ r, r ∈ ip info ∧ in_network e daddr r = Some true)
         ∨ ∃ name, name ∈ org_name info
             ∧ (contains (lower name)
                  (lower (get_mac_vendor_from_profile e profileid))
                || contains (lower name)
                     (lower (get_mac_vendor_from_profile e ("profile_" ++ daddr)))
                || contains (lower name) (lower (get_ip_identification e daddr))
                || is_ip_in_org e daddr (lower name)) = true).
Proof.
  assert (Hranges : ∀ l, ranges_loop e daddr l = true
                         ↔ ∃ r, r ∈ l ∧ in_network e daddr r = Some true).
  { induction l as [|r l IH]; cbn.
    - split; [discriminate|]. intros (r & Hr & _). set_solver.
    - destruct (in_network e daddr r) as [[|]|] eqn:Er.
      + split; [|done]. intros _. exists r. split; [set_solver|done].
      + rewrite IH. split; intros (r' & Hr' & Hn).
        * exists r'. split; [set_solver|done].
        * exists r'. split; [|done].
          apply elem_of_cons in Hr' as [->|]; [congruence|done].
      + rewrite IH. split; intros (r' & Hr' & Hn).
        * exists r'. split; [set_solver|done].
        * exists r'. split; [|done].
          apply elem_of_cons in Hr' as [->|]; [congruence|done]. }
  assert (Hnames : ∀ src dst l, names_loop e daddr src dst l = true
            ↔ ∃ name, name ∈ l
                ∧ (contains (lower name) (lower src)
                   || contains (lower name) (lower dst)
                   || contains (lower name) (lower (get_ip_identification e daddr))
                   || is_ip_in_org e daddr (lower name)) = true).
  { intros src dst. induction l as [|n l IH]; cbn.
    - split; [discriminate|]. intros (r & Hr & _). set_solver.
    - destruct (contains (lower n) (lower src) || contains (lower n) (lower dst))
        eqn:E1.
      { split; [|done]. intros _. exists n. split; [set_solver|]. by rewrite E1. }
      destruct (contains (lower n) (lower (get_ip_identification e daddr))) eqn:E2.
      { split; [|done]. intros _. exists n. split; [set_solver|].
        rewrite E1, E2. done. }
      destruct (is_ip_in_org e daddr (lower n)) eqn:E3.
      { split; [|done]. intros _. exists n. split; [set_solver|].
        rewrite E1, E2, E3. done. }
      rewrite IH. split; intros (n' & Hn' & Hm).
      + exists n'. split; [set_solver|done].
      + exists n'. split; [|done].
        apply elem_of_cons in Hn' as [->|]; [|done].
        rewrite E1, E2, E3 in Hm. discriminate. }
  unfold port_belongs_to_an_org.
  destruct (get_organization_of_port e portproto) as [info|].
  2:{ split; [discriminate|]. intros (? & ? & _). discriminate. }
  destruct (mem daddr (ip info)) eqn:Em.
  { split; [|done]. intros _. exists info. split; [done|]. left.
    by apply bool_decide_eq_true in Em. }
  apply bool_decide_eq_false in Em.
  destruct (ranges_loop e daddr (ip info)) eqn:Er.
  { split; [|done]. intros _. exists info. split; [done|]. right. left.
    by apply Hranges. }
  rewrite Hnames. split.
  - intros H. exists info. split; [done|]. right. right. exact H.
  - intros (info' & [= <-] & [H|[H|H]]); [done| |done].
    apply Hranges in H. congruence.
Qed.

End UnknownPort_facts.

Module PortZero_facts.
Import PortZero.

(** Property X5.
    [check_conn_to_port_0] sets one evidence exactly when the protocol, in
    lower case, is none of igmp, icmp, ipv6-icmp and arp and one of the two
    ports is 0, and nothing otherwise.  The attacker is the source when the
    source port is 0 and the destination otherwise, and the victim is
    always the other endpoint of the flow. *)
Theorem port_0_attacker_and_victim (sport : Z) (dport : option Z)
  (proto saddr daddr profileid twid uid timestamp : string) :
  let r := check_conn_to_port_0 sport dport proto saddr daddr profileid twid
             uid timestamp in
  let exempt := mem (lower proto) ["igmp"; "icmp"; "ipv6-icmp"; "arp"] in
  (r = [] ↔ exempt = true ∨ (sport ≠ 0%Z ∧ dport ≠ Some 0%Z))
  ∧ (r ≠ [] →
     r = [for_port_0_connection saddr daddr sport dport profileid twid uid
            timestamp
            (if (sport =? 0)%Z then daddr else saddr)
            (if (sport =? 0)%Z then saddr else daddr)]).
Proof.
  intros r exempt. subst r exempt. unfold check_conn_to_port_0.
  destruct (mem _ _); [split; [split; auto|done]|].
  destruct (Z.eqb_spec sport 0) as [->|Hs]; cbn [negb andb].
  - split.
    + split; [discriminate|]. intros [?|[? _]]; [discriminate|done].
    + intros _. destruct (String.eqb_spec saddr daddr) as [->|Hne]; done.
  - destruct (decide (dport = Some 0%Z)) as [->|Hd].
    + rewrite bool_decide_eq_true_2 by done. cbn [negb]. split.
      * split; [discriminate|]. intros [?|[_ ?]]; [discriminate|done].
      * intros _. by rewrite String.eqb_refl.
    + rewrite bool_decide_eq_false_2 by done. cbn [negb]. split; [|done].
      split; auto.
Qed.

Lemma port_0_attacker_and_victim_witness :
  check_conn_to_port_0 0 (Some 0%Z) "tcp" "10.0.0.1" "10.0.0.2"
    "profile_10.0.0.1" "timewindow1" "uid1" "1.0"
  = [for_port_0_connection "10.0.0.1" "10.0.0.2" 0 (Some 0%Z)
       "profile_10.0.0.1" "timewindow1" "uid1" "1.0" "10.0.0.2" "10.0.0.1"].
Proof.
  apply (port_0_attacker_and_victim 0 (Some 0%Z) "tcp" "10.0.0.1" "10.0.0.2"
           "profile_10.0.0.1" "timewindow1" "uid1" "1.0").
  discriminate.
Defined.

End PortZero_facts.

Module LocalNet_facts.
Import LocalNet.

(** Property X6.
    The two directions of [check_different_localnet_usage] are independent:
    with "srcip" the way the call ends, with [ValueError], with an evidence
    or with none, is the same whatever the destination, its port and the
    protocol are; with any other value of [what_to_check], the empty default
    included, the destination is checked and the call ends the same way
    whatever the source is.  A call that returns has set nothing or one
    evidence, which names the destination address, the port and protocol of
    the flow, and [what_to_check]. *)
Theorem localnet_directions_are_independent (e : env)
  (saddr daddr : string) (dport : option Z)
  (proto profileid timestamp twid uid what_to_check : string) :
  let check := check_different_localnet_usage e in
  (∀ daddr' dport' proto',
     outcome (check saddr daddr dport proto profileid timestamp twid uid
                "srcip")
     = outcome (check saddr daddr' dport' proto' profileid timestamp twid uid
                  "srcip"))
  ∧ (what_to_check ≠ "srcip" →
     ∀ saddr',
       outcome (check saddr daddr dport proto profileid timestamp twid uid
                  what_to_check)
       = outcome (check saddr' daddr dport proto profileid timestamp twid uid
                    "dstip"))
  ∧ (∀ evs,
       check saddr daddr dport proto profileid timestamp twid uid
         what_to_check = Some evs →
       evs = []
       ∨ evs = [different_localnet_usage daddr
                  (match dport with Some p => pretty p | None => "None" end
                   ++ "/" ++ proto)
                  profileid timestamp twid uid what_to_check]).
Proof.
  intros check. subst check. unfold check_different_localnet_usage.
  split; [|split].
  - intros daddr' dport' proto'. cbn [String.eqb Ascii.eqb Bool.eqb].
    destruct (valid e saddr); cbn [negb]; [|done].
    destruct (get_local_network e) as [net|]; [|done].
    destruct (ipv4 e saddr && is_private_ip e saddr); cbn [negb]; [|done].
    destruct (IPv4Network e net) as [network|]; [|done].
    by destruct (network saddr).
  - intros Hw saddr'. apply String.eqb_neq in Hw. rewrite Hw.
    cbn [String.eqb Ascii.eqb Bool.eqb].
    destruct (valid e daddr); cbn [negb]; [|done].
    destruct (get_local_network e) as [net|]; [|done].
    destruct (ipv4 e daddr && is_private_ip e daddr); cbn [negb]; [|done].
    destruct (IPv4Network e net) as [network|]; [|done].
    by destruct (network daddr).
  - intros evs.
    destruct (valid e _); cbn [negb]; [|discriminate].
    destruct (get_local_network e) as [net|]; [|intros [= <-]; by left].
    destruct (ipv4 e _ && is_private_ip e _); cbn [negb];
      [|intros [= <-]; by left].
    destruct (IPv4Network e net) as [network|]; [|discriminate].
    destruct (network _); intros [= <-]; [by left|by right].
Qed.

Lemma localnet_directions_are_independent_witness :
  outcome (check_different_localnet_usage home
             "8.8.8.8" "10.0.0.7" (Some 443%Z) "tcp" "profile_8.8.8.8" "1.0"
             "timewindow1" "uid1" "")
  = outcome (check_different_localnet_usage home
               "192.168.1.9" "10.0.0.7" (Some 443%Z) "tcp" "profile_8.8.8.8"
               "1.0" "timewindow1" "uid1" "dstip").
Proof.
  apply (localnet_directions_are_independent home
           "8.8.8.8" "10.0.0.7" (Some 443%Z) "tcp" "profile_8.8.8.8" "1.0"
           "timewindow1" "uid1" "").
  discriminate.
Defined.

(** A destination outside the local network gets the evidence; with the
    local network stored with host bits set the same call raises. *)
Example localnet_examples :
  check_different_localnet_usage home "192.168.1.9" "10.0.0.7" (Some 443%Z)
    "tcp" "profile_192.168.1.9" "1.0" "timewindow1" "uid1" "dstip"
  = Some [different_localnet_usage "10.0.0.7" "443/tcp" "profile_192.168.1.9"
            "1.0" "timewindow1" "uid1" "dstip"]
  ∧ check_different_localnet_usage home "192.168.1.9" "10.0.0.7" (Some 443%Z)
      "tcp" "profile_192.168.1.9" "1.0" "timewindow1" "uid1" "srcip"
    = Some []
  ∧ check_different_localnet_usage host_bits_set "192.168.1.9" "10.0.0.7"
      (Some 443%Z) "tcp" "profile_192.168.1.9" "1.0" "timewindow1" "uid1"
      "dstip"
    = None.
Proof. repeat split. Qed.

End LocalNet_facts.

Module SentBytes_facts.
Import SentBytes.

Lemma get_sent_bytes_snoc (ip_address : string → option address)
  (gateway : option string) (l : list (string * flow)) (item : string * flow) :
  get_sent_bytes ip_address gateway (l ++ [item])
  = count_flow ip_address gateway (get_sent_bytes ip_address gateway l) item.
Proof. unfold get_sent_bytes. by rewrite foldl_app. Qed.

Lemma counted_for_snoc (d : string) (l : list (string * flow))
  (item : string * flow) :
  counted_for d (l ++ [item])
  = (counted_for d l
     ++ if decide (daddr item.2 = d ∧ default 0%Z (sbytes item.2) ≠ 0%Z)
        then [item] else [])%list.
Proof.
  unfold counted_for. rewrite filter_app, filter_cons, filter_nil.
  by destruct (decide _).
Qed.

Lemma sum_sbytes_snoc (l : list (string * flow)) (item : string * flow) :
  sum_sbytes (l ++ [item])
  = (sum_sbytes l + default 0%Z (sbytes item.2))%Z.
Proof.
  unfold sum_sbytes. induction l as [|x l IH]; cbn; [lia|].
  cbn in IH. rewrite IH. lia.
Qed.

Lemma last_starttime_snoc (l : list (string * flow)) (item : string * flow) :
  last_starttime (l ++ [item]) = default "" (starttime item.2).
Proof. unfold last_starttime. by rewrite last_snoc. Qed.

(** Property X7.
    [get_sent_bytes] adds up, per destination, the bytes of the flows that
    count.  When every destination of [all_flows] is an address, the result
    has, for a destination that is not ignored and has a flow with a
    non-zero number of bytes sent: the sum of the bytes of those flows, their
    uids in order, and the start time of the last of them; other
    destinations have no entry.  When some destination is not an address the
    whole call raises, whatever the other flows are. *)
Theorem get_sent_bytes_totals (ip_address : string → option address)
  (gateway : option string) (all_flows : list (string * flow)) :
  ((∃ item, item ∈ all_flows ∧ ip_address (daddr item.2) = None) →
   get_sent_bytes ip_address gateway all_flows = None)
  ∧ ((∀ item, item ∈ all_flows → ip_address (daddr item.2) ≠ None) →
     ∃ bytes_sent,
       get_sent_bytes ip_address gateway all_flows = Some bytes_sent
       ∧ ∀ d,
           bytes_sent !! d =
             if bool_decide
                  (is_ignored_ip_data_upload ip_address gateway d = Some false
                   ∧ counted_for d all_flows ≠ [])
             then Some (sum_sbytes (counted_for d all_flows),
                        (counted_for d all_flows).*1,
                        last_starttime (counted_for d all_flows))
             else None).
Proof.
  induction all_flows as [|[uid f] l [IH1 IH2]] using rev_ind.
  - split; [intros (item & Hin & _); set_solver|].
    intros _. exists ∅. split; [done|]. intros d. rewrite lookup_empty.
    rewrite bool_decide_eq_false_2; [done|]. intros [_ H]. by apply H.
  - rewrite get_sent_bytes_snoc. split.
    + intros (item & Hin & Hbad). apply elem_of_app in Hin as [Hin|Hin].
      * rewrite IH1; [done|]. by exists item.
      * apply list_elem_of_singleton in Hin as ->. cbn in Hbad.
        destruct (get_sent_bytes ip_address gateway l); [|done].
        cbn. unfold is_ignored_ip_data_upload. by rewrite Hbad.
    + intros Hall.
      destruct IH2 as (m & Hm & Hlook).
      { intros item Hin. apply Hall. set_solver. }
      rewrite Hm. cbn [count_flow].
      assert (Hf : ip_address (daddr f) ≠ None).
      { apply (Hall (uid, f)). set_solver. }
      unfold is_ignored_ip_data_upload at 1.
      destruct (ip_address (daddr f)) as [obj|] eqn:Eobj; [|done].
      set (ign := bool_decide (Some (daddr f) = gateway) || is_multicast obj
                  || is_link_local obj || is_reserved obj).
      assert (Hign : is_ignored_ip_data_upload ip_address gateway (daddr f)
                     = Some ign).
      { unfold is_ignored_ip_data_upload. by rewrite Eobj. }
      assert (Hother : ∀ d, d ≠ daddr f →
                counted_for d (l ++ [(uid, f)]) = counted_for d l).
      { intros d Hd. rewrite counted_for_snoc. cbn.
        rewrite decide_False by (intros [? _]; congruence).
        by rewrite app_nil_r. }
      destruct ign eqn:Eign; cbn [orb].
      { exists m. split; [done|]. intros d. rewrite Hlook.
        destruct (decide (d = daddr f)) as [->|Hd].
        - rewrite !bool_decide_eq_false_2; [done| |];
            intros [H _]; congruence.
        - by rewrite Hother. }
      destruct (Z.eqb_spec (default 0%Z (sbytes f)) 0) as [Hz|Hz].
      { exists m. split; [done|]. intros d. rewrite Hlook.
        rewrite counted_for_snoc. cbn.
        rewrite decide_False by (intros [_ ?]; congruence).
        by rewrite app_nil_r. }
      assert (Hsnoc : counted_for (daddr f) (l ++ [(uid, f)])
                      = (counted_for (daddr f) l ++ [(uid, f)])%list).
      { rewrite counted_for_snoc. cbn. by rewrite decide_True. }
      specialize (Hlook (daddr f)) as Hhere. rewrite Hign in Hhere.
      destruct (m !! daddr f) as [[[mbs uids] ts]|] eqn:Em.
      * exists (<[daddr f := ((mbs + default 0%Z (sbytes f))%Z,
                              (uids ++ [uid])%list,
                              default "" (starttime f))]> m).
        split; [done|]. intros d.
        destruct (decide (d = daddr f)) as [->|Hd].
        -- rewrite lookup_insert_eq, Hign, Hsnoc.
           rewrite bool_decide_eq_true_2.
           2:{ split; [done|]. by destruct (counted_for (daddr f) l). }
           destruct (bool_decide _) in Hhere; [|done].
           injection Hhere as -> -> _.
           by rewrite sum_sbytes_snoc, fmap_app, last_starttime_snoc.
        -- rewrite lookup_insert_ne by done. rewrite Hlook. by rewrite Hother.
      * exists (<[daddr f := (default 0%Z (sbytes f), [uid],
                              default "" (starttime f))]> m).
        split; [done|]. intros d.
        destruct (decide (d = daddr f)) as [->|Hd].
        -- rewrite lookup_insert_eq, Hign, Hsnoc.
           rewrite bool_decide_eq_true_2.
           2:{ split; [done|]. by destruct (counted_for (daddr f) l). }
           destruct (bool_decide_reflect
                       (Some false = Some false ∧ counted_for (daddr f) l ≠ []))
             as [_|Hno] in Hhere; [done|].
           assert (Hnil : counted_for (daddr f) l = []).
           { destruct (counted_for (daddr f) l); [done|]. exfalso. by apply Hno. }
           rewrite Hnil. cbn. rewrite Z.add_0_r. done.
        -- rewrite lookup_insert_ne by done. rewrite Hlook. by rewrite Hother.
Qed.

Lemma get_sent_bytes_totals_witness :
  get_sent_bytes plain (Some "192.168.1.1")
    [("uid1", Flow "1.2.3.4" (Some 5%Z) (Some "1.0"));
     ("uid2", Flow "not-an-ip" None None);
     ("uid3", Flow "1.2.3.4" (Some 7%Z) (Some "3.0"))]
  = None.
Proof.
  apply (get_sent_bytes_totals plain (Some "192.168.1.1")
           [("uid1", Flow "1.2.3.4" (Some 5%Z) (Some "1.0"));
            ("uid2", Flow "not-an-ip" None None);
            ("uid3", Flow "1.2.3.4" (Some 7%Z) (Some "3.0"))]).
  exists ("uid2", Flow "not-an-ip" None None).
  split; [set_solver|reflexivity].
Defined.

(** Two flows to one destination, one to the gateway, one to a multicast
    address and one without bytes. *)
Example get_sent_bytes_example :
  get_sent_bytes plain (Some "192.168.1.1")
    [("uid1", Flow "1.2.3.4" (Some 5%Z) (Some "1.0"));
     ("uid2", Flow "192.168.1.1" (Some 9%Z) (Some "2.0"));
     ("uid3", Flow "224.0.0.1" (Some 9%Z) (Some "2.5"));
     ("uid4", Flow "5.6.7.8" None (Some "2.7"));
     ("uid5", Flow "1.2.3.4" (Some 7%Z) None)]
  = Some {[ "1.2.3.4" := (12%Z, ["uid1"; "uid5"], "") ]}.
Proof. vm_compute. reflexivity. Qed.

End SentBytes_facts.

Module ConnWithoutDnsRuns_facts.
Import ConnWithoutDns ConnWithoutDnsRuns.

Lemma remove_first_snoc (x : string) (l : list string) :
  x ∉ l → remove_first x (l ++ [x]) = l.
Proof.
  induction l as [|y l IH]; intros Hx; cbn.
  - by rewrite String.eqb_refl.
  - destruct (String.eqb_spec y x) as [->|Hne]; [set_solver|].
    rewrite IH; [done|set_solver].
Qed.

Lemma remove_first_keeps (x y : string) (l : list string) :
  y ≠ x → y ∈ l → y ∈ remove_first x l.
Proof.
  intros Hne. induction l as [|z l IH]; cbn; [done|].
  destruct (String.eqb_spec z x) as [->|Hzx]; set_solver.
Qed.

(** The youngest timer fires. *)
Lemma fire_nth_youngest (e : env) (a : params) (p : list string)
  (ts : list params) (evs : list evidence) :
  fire_nth e (length ts) (State p (ts ++ [a])%list evs)
  = after e a (State p ts evs).
Proof.
  unfold fire_nth.
  cbn [timers connections_checked_in_conn_dns_timer_thread emitted].
  rewrite list_lookup_middle by done.
  by rewrite delete_middle, app_nil_r.
Qed.

(** The oldest timer fires: [fire]. *)
Lemma fire_nth_oldest (e : env) (s : state) : fire_nth e 0 s = fire e s.
Proof. unfold fire_nth, fire. by destruct (timers s). Qed.

(** Property X8.
    A flow with a uid that is new to the analyzer, and then its timer,
    whatever other timers are pending.  The flow has the uid registered and
    its timer started, behind the pending ones.  If by the time that timer
    fires the destination is still unresolved, one evidence is set and the
    list of uids is as it was before the flow: the uid is forgotten.  If the
    re-check finds the condition resolved, no evidence is set and the uid
    stays in the list.  The other timers stay pending in both cases. *)
Theorem check_then_recheck (e1 e2 : env) (a : params) (s : state) :
  uid a ∉ connections_checked_in_conn_dns_timer_thread s →
  reaches_uid_test e1 a = true →
  after e1 a s =
    State (connections_checked_in_conn_dns_timer_thread s ++ [uid a])%list
          (timers s ++ [a])%list (emitted s)
  ∧ (reaches_uid_test e2 a = true → recheck_resolves e2 a = false →
     raises (is_well_known_org e2 (daddr a)) = false →
     fire_nth e2 (length (timers s)) (after e1 a s) =
       State (connections_checked_in_conn_dns_timer_thread s) (timers s)
             (emitted s ++ [conn_without_dns (daddr a) (timestamp a)
                              (profileid a) (twid a) (uid a)])%list)
  ∧ (recheck_resolves e2 a = true →
     fire_nth e2 (length (timers s)) (after e1 a s) =
       State (connections_checked_in_conn_dns_timer_thread s ++ [uid a])%list
             (timers s) (emitted s)).
Proof.
  intros Hnew Hreach.
  rewrite (ConnWithoutDns_facts.first_check_registers e1 a s Hnew Hreach).
  split; [done|]. rewrite fire_nth_youngest.
  set (s0 := State (connections_checked_in_conn_dns_timer_thread s ++ [uid a])%list
                   (timers s) (emitted s)).
  assert (Hin : uid a ∈ connections_checked_in_conn_dns_timer_thread s0)
    by (cbn; set_solver).
  destruct (ConnWithoutDns_facts.recheck_outcomes e2 a s0 Hin)
    as [[Heq Hwhy]|(Heq & Hr & Hno)].
  - split.
    + intros H1 H2 H3. destruct Hwhy as [?|[?|?]]; congruence.
    + intros _. exact Heq.
  - split.
    + intros _ _ _. rewrite Heq. cbn. by rewrite remove_first_snoc.
    + intros H. congruence.
Qed.

Lemma check_then_recheck_witness :
  fire_nth quiet 1 (after quiet a_flow (State ["C9X1"] [another_flow] [])) =
    State ["C9X1"] [another_flow]
          [conn_without_dns (daddr a_flow) (timestamp a_flow)
             (profileid a_flow) (twid a_flow) (uid a_flow)].
Proof.
  apply (check_then_recheck quiet quiet a_flow
           (State ["C9X1"] [another_flow] [])).
  - cbn. intros H%list_elem_of_singleton. discriminate H.
  - reflexivity.
  - reflexivity.
  - reflexivity.
  - reflexivity.
Defined.

Lemma arriving_uids_snoc (evs : list event) (ev : event) :
  arriving_uids (evs ++ [ev])
  = (arriving_uids evs
     ++ match ev with FlowArrives _ a => [uid a] | TimerFires _ _ => [] end)%list.
Proof.
  induction evs as [|[e a|e i] evs IH]; cbn.
  - by destruct ev.
  - by rewrite IH.
  - exact IH.
Qed.

(** A timer that leaves a list of timers with distinct uids. *)
Lemma delete_timer (l : list params) (i : nat) (a : params) :
  l !! i = Some a → NoDup (uid <$> l) →
  a ∈ l
  ∧ (uid a ∉ uid <$> delete i l)
  ∧ NoDup (uid <$> delete i l)
  ∧ ∀ b, b ∈ delete i l → b ∈ l.
Proof.
  intros Hi Hnd. pose proof (take_drop_middle l i a Hi) as El.
  rewrite delete_take_drop. clear Hi. revert El.
  generalize (take i l) (drop (S i) l). intros t d El. subst l.
  rewrite fmap_app, fmap_cons in Hnd.
  apply NoDup_app in Hnd as (Ht & Hdisj & Had).
  apply NoDup_cons in Had as [Ha Hd].
  split; [set_solver|]. split; [|split].
  - rewrite fmap_app. intros [H|H]%elem_of_app; [|done].
    apply (Hdisj _ H). by left.
  - rewrite fmap_app. apply NoDup_app. split; [done|]. split; [|done].
    intros x Hx Hx'. apply (Hdisj x Hx). by right.
  - set_solver.
Qed.

(** Property X9.
    When no two arriving flows share a uid, which is what the clean-up of
    the check relies on, no uid gets the evidence twice, whatever the order
    of the flows and of the timers, any pending timer being the next to
    fire, and whatever the store answers; and every evidence is about a flow
    that arrived. *)
Theorem one_evidence_per_uid (evs : list event) :
  NoDup (arriving_uids evs) →
  NoDup (uid_of <$> emitted (run evs initial))
  ∧ ∀ u, u ∈ uid_of <$> emitted (run evs initial) → u ∈ arriving_uids evs.
Proof.
  intros Hnd.
  assert (Hinv :
    (NoDup (uid <$> timers (run evs initial))
     ∧ ∀ b, b ∈ timers (run evs initial) →
         uid b ∈ connections_checked_in_conn_dns_timer_thread (run evs initial)
         ∧ uid b ∉ uid_of <$> emitted (run evs initial))
    ∧ (NoDup (connections_checked_in_conn_dns_timer_thread (run evs initial))
       ∧ ∀ u, u ∈ connections_checked_in_conn_dns_timer_thread (run evs initial)
              → u ∈ arriving_uids evs)
    ∧ (NoDup (uid_of <$> emitted (run evs initial))
       ∧ ∀ u, u ∈ uid_of <$> emitted (run evs initial) → u ∈ arriving_uids evs)).
  { induction evs as [|ev evs IH] using rev_ind.
    - cbn. repeat split; try constructor; set_solver.
    - rewrite arriving_uids_snoc in Hnd |- *.
      apply NoDup_app in Hnd as (Hnd & Hfresh & _).
      destruct (IH Hnd) as ((Ht1 & Ht2) & (Hp1 & Hp2) & (He1 & He2)).
      clear IH. unfold run in *. rewrite foldl_app. cbn [foldl handle].
      set (s := foldl handle initial evs) in *.
      destruct ev as [e a|e i]; cbn [handle].
      + assert (Hnew : uid a ∉ connections_checked_in_conn_dns_timer_thread s).
        { intros Hin. apply (Hfresh (uid a)); [by apply Hp2|set_solver]. }
        destruct (reaches_uid_test e a) eqn:Hr.
        * rewrite ConnWithoutDns_facts.first_check_registers by done. cbn.
          split; [split|split; [split|split]].
          -- rewrite fmap_app. apply NoDup_app. split; [done|].
             split; [|apply NoDup_singleton].
             intros u Hu Hu'. apply list_elem_of_singleton in Hu' as ->.
             apply list_elem_of_fmap in Hu as (b & Hb & Hbt).
             apply Hnew. rewrite Hb. by apply Ht2.
          -- intros b Hb. apply elem_of_app in Hb as [Hb|Hb].
             ++ destruct (Ht2 b Hb). split; [set_solver|done].
             ++ apply list_elem_of_singleton in Hb as ->.
                split; [set_solver|].
                intros Hin. apply (Hfresh (uid a)); [by apply He2|set_solver].
          -- apply NoDup_app. split; [done|]. split; [|apply NoDup_singleton].
             intros u Hu Hu'. apply list_elem_of_singleton in Hu' as ->. done.
          -- intros u Hu. apply elem_of_app in Hu as [Hu|Hu]; [|set_solver].
             apply elem_of_app. left. by apply Hp2.
          -- done.
          -- intros u Hu. apply elem_of_app. left. by apply He2.
        * rewrite ConnWithoutDns_facts.unreached_is_silent by done.
          split; [done|]. split; [split; [done|]|split; [done|]];
            intros u Hu; apply elem_of_app; left; auto.
      + rewrite app_nil_r. unfold fire_nth.
        destruct (timers s !! i) as [a|] eqn:Ei; [|done].
        destruct (delete_timer _ _ _ Ei Ht1) as (Hal & Ha & Hrest & Hsub).
        set (s0 := State (connections_checked_in_conn_dns_timer_thread s)
                         (delete i (timers s)) (emitted s)).
        destruct (Ht2 a Hal) as [Hain Haev].
        destruct (ConnWithoutDns_facts.recheck_outcomes e a s0 Hain)
          as [[-> _]|(-> & _)]; cbn.
        * split; [split; [done|]|done]. intros b Hb. apply Ht2. by apply Hsub.
        * destruct (ConnWithoutDns_facts.remove_first_NoDup (uid a) _ Hp1)
            as (Hout & Hnd' & Hsub').
          split; [split|split; [split|split]].
          -- done.
          -- intros b Hb. destruct (Ht2 b) as [Hbin Hbev]; [by apply Hsub|].
             assert (uid b ≠ uid a).
             { intros Heq. apply Ha. rewrite <- Heq.
               apply list_elem_of_fmap. by exists b. }
             split; [by apply remove_first_keeps|].
             rewrite fmap_app. cbn. set_solver.
          -- done.
          -- intros u Hu. apply Hp2. by apply Hsub'.
          -- rewrite fmap_app. cbn. apply NoDup_app. split; [done|].
             split; [|apply NoDup_singleton].
             intros u Hu Hu'. apply list_elem_of_singleton in Hu' as ->. done.
          -- intros u Hu. rewrite fmap_app in Hu. cbn in Hu.
             apply elem_of_app in Hu as [Hu|Hu]; [by apply He2|].
             apply list_elem_of_singleton in Hu as ->. by apply Hp2. }
  apply Hinv.
Qed.

Lemma one_evidence_per_uid_witness :
  NoDup (uid_of <$> emitted (run [FlowArrives quiet another_flow;
                                   FlowArrives quiet a_flow;
                                   TimerFires quiet 1; TimerFires quiet 0;
                                   TimerFires quiet 0] initial)).
Proof.
  apply (one_evidence_per_uid
           [FlowArrives quiet another_flow; FlowArrives quiet a_flow;
            TimerFires quiet 1; TimerFires quiet 0; TimerFires quiet 0]).
  apply (bool_decide_unpack _). vm_compute. reflexivity.
Defined.

(** Two flows whose timers fire in the order of their start, and in the
    other order: the evidence is set in the order of the re-checks. *)
Example rechecks_in_either_order :
  uid_of <$> emitted (run [FlowArrives quiet another_flow;
                            FlowArrives quiet a_flow;
                            TimerFires quiet 0; TimerFires quiet 0] initial)
  = ["C9X1"; "CAeDWs37BipkfP21u8"]
  ∧ uid_of <$> emitted (run [FlowArrives quiet another_flow;
                              FlowArrives quiet a_flow;
                              TimerFires quiet 1; TimerFires quiet 0] initial)
    = ["CAeDWs37BipkfP21u8"; "C9X1"].
Proof. split; reflexivity. Qed.

(** Property X10.
    A re-check for a destination whose stored SNI is an empty list raises
    [IndexError]: indexing the list is not among the exceptions that
    [is_well_known_org] catches.  No evidence is set by such a call. *)
Theorem recheck_with_empty_sni_raises (e : env) (a : params) (s : state)
  (rdns : option string) :
  uid a ∈ connections_checked_in_conn_dns_timer_thread s →
  reaches_uid_test e a = true →
  check_if_resolution_was_made_by_different_version e (profileid a) (daddr a)
    = false →
  get_ip_info e (daddr a) = Some (IpInfo (Some (SniList [])) rdns) →
  check_connection_without_dns_resolution e a s = Raise IndexError.
Proof.
  intros Hin Hreach Hother Hinfo. apply ConnWithoutDns_facts.mem_true in Hin.
  unfold reaches_uid_test in Hreach.
  apply andb_prop in Hreach as [Hreach Hres].
  apply andb_prop in Hreach as [Hign Hif].
  apply negb_true_iff in Hres, Hign, Hif.
  unfold check_connection_without_dns_resolution.
  rewrite Hign, Hres, Hin, Hother.
  assert (Hwk : is_well_known_org e (daddr a) = Raise IndexError).
  { unfold is_well_known_org. by rewrite Hinfo. }
  rewrite Hwk.
  destruct (interface_or_growing_dir e); cbn [andb negb orb bind] in *.
  - apply orb_false_iff in Hif as [H1 H2]. by rewrite H1, H2.
  - done.
Qed.

Lemma recheck_with_empty_sni_raises_witness :
  check_connection_without_dns_resolution empty_sni a_flow awaiting
  = Raise IndexError.
Proof.
  apply (recheck_with_empty_sni_raises empty_sni a_flow awaiting None).
  - cbn. set_solver.
  - reflexivity.
  - reflexivity.
  - reflexivity.
Defined.

(** Property X11.
    While Slips reads from an interface and less than 30 minutes have
    passed since its start, no flow is registered and no evidence is set,
    whatever flows arrive and whatever timers fire. *)
Theorem nothing_during_warm_up (evs : list event) (s : state) :
  Forall (λ ev, warming_up (world ev) = true) evs →
  connections_checked_in_conn_dns_timer_thread (run evs s)
    = connections_checked_in_conn_dns_timer_thread s
  ∧ emitted (run evs s) = emitted s
  ∧ length (timers (run evs s)) ≤ length (timers s).
Proof.
  assert (Hsilent : ∀ e a, warming_up e = true → reaches_uid_test e a = false).
  { intros e a Hw. unfold warming_up in Hw. apply andb_prop in Hw as [Hi Hm].
    unfold reaches_uid_test. rewrite Hi, Hm. cbn [andb].
    rewrite orb_true_r. cbn [negb]. by rewrite andb_false_r. }
  induction evs as [|ev evs IH] using rev_ind; intros Hall; [done|].
  apply Forall_app in Hall as [Hevs Hev]. rewrite Forall_singleton in Hev.
  destruct (IH Hevs) as (Hp & He & Ht).
  unfold run in *. rewrite foldl_app. cbn [foldl handle].
  set (s1 := foldl handle s evs) in *.
  destruct ev as [e a|e i]; cbn [handle world] in *.
  - rewrite ConnWithoutDns_facts.unreached_is_silent by (by apply Hsilent).
    done.
  - unfold fire_nth. destruct (timers s1 !! i) as [a|] eqn:Et; [|done].
    rewrite ConnWithoutDns_facts.unreached_is_silent by (by apply Hsilent).
    cbn [connections_checked_in_conn_dns_timer_thread emitted timers].
    split; [done|]. split; [done|].
    rewrite length_delete by eauto. lia.
Qed.

Lemma nothing_during_warm_up_witness :
  connections_checked_in_conn_dns_timer_thread
    (run [FlowArrives
            (Env (λ _, false) [] "pcap" (λ _, false) (λ _, false) true
                 ["192.168.1.5"] 12%Z (λ _ _, false) (λ _, None)
                 (λ _, ResolutionDict None) (λ _, None) [] (λ _ _, false)
                 (λ _ _, false) (λ _ _, false))
            a_flow] initial)
  = []
  ∧ emitted
      (run [FlowArrives
              (Env (λ _, false) [] "pcap" (λ _, false) (λ _, false) true
                   ["192.168.1.5"] 12%Z (λ _ _, false) (λ _, None)
                   (λ _, ResolutionDict None) (λ _, None) [] (λ _ _, false)
                   (λ _ _, false) (λ _ _, false))
              a_flow] initial)
    = []
  ∧ length
      (timers
         (run [FlowArrives
                 (Env (λ _, false) [] "pcap" (λ _, false) (λ _, false) true
                      ["192.168.1.5"] 12%Z (λ _ _, false) (λ _, None)
                      (λ _, ResolutionDict None) (λ _, None) [] (λ _ _, false)
                      (λ _ _, false) (λ _ _, false))
                 a_flow] initial))
    ≤ 0.
Proof.
  apply (nothing_during_warm_up
           [FlowArrives
              (Env (λ _, false) [] "pcap" (λ _, false) (λ _, false) true
                   ["192.168.1.5"] 12%Z (λ _ _, false) (λ _, None)
                   (λ _, ResolutionDict None) (λ _, None) [] (λ _ _, false)
                   (λ _ _, false) (λ _ _, false))
              a_flow] initial).
  repeat constructor.
Defined.

End ConnWithoutDnsRuns_facts.

Module DeviceChangingIpsRuns_facts.
Import DeviceChangingIps DeviceChangingIpsRuns.

(** One call, seen from the source address [saddr]: the marks only grow; an
    evidence about [saddr] is added only by a call that finds [saddr]
    unmarked and leaves it marked, and then it is a single one. *)
Lemma handle_about (t : addr_tests) (saddr : string) (s : state) (c : call) :
  seen_in_connlog (db s) ⊆ seen_in_connlog (db (handle t s c))
  ∧ (emitted (handle t s c) = emitted s
     ∨ ∃ ev, emitted (handle t s c) = (emitted s ++ [ev])%list
             ∧ (about saddr ev →
                (saddr ∉ seen_in_connlog (db s))
                ∧ saddr ∈ seen_in_connlog (db (handle t s c)))).
Proof.
  unfold handle, check_device_changing_ips, was_ip_seen_in_connlog_before,
    get_ip_of_mac.
  destruct (contains "conn" (flow_type c)); cbn [negb]; [|by auto].
  destruct (truthy (smac c)); cbn [negb]; [|by auto].
  destruct (ipv4 t _ && is_private_ip t _); cbn [negb]; [|by auto].
  destruct (bool_decide _) eqn:Hs; [by auto|].
  apply bool_decide_eq_false in Hs.
  cbn [mark_srcip_as_seen_in_connlog db ip_of_mac].
  destruct (ip_of_mac (db s) !! smac c) as [l|];
    [|cbn; split; [set_solver|by left]].
  destruct (first_ipv4 t l) as [old|]; [|cbn; split; [set_solver|by left]].
  destruct (negb _); [|cbn; split; [set_solver|by left]].
  cbn. split; [set_solver|]. right. eexists. split; [done|].
  cbn. intros <-. split; [done|set_solver].
Qed.

(** Property X12.
    Over any sequence of calls, whatever their flow types, MACs and
    profiles, at most one evidence is set about one source address, and none
    about an address that was marked as seen before the sequence. *)
Theorem one_device_evidence_per_source (t : addr_tests) (cs : list call)
  (s : state) (saddr : string) :
  let new := drop (length (emitted s)) (emitted (run t cs s)) in
  length (filter (about saddr) new) ≤ 1
  ∧ (saddr ∈ seen_in_connlog (db s) → filter (about saddr) new = []).
Proof.
  cbn zeta.
  assert (Hinv : ∃ new,
    emitted (run t cs s) = (emitted s ++ new)%list
    ∧ seen_in_connlog (db s) ⊆ seen_in_connlog (db (run t cs s))
    ∧ length (filter (about saddr) new) ≤ 1
    ∧ (filter (about saddr) new ≠ [] →
       (saddr ∉ seen_in_connlog (db s))
       ∧ saddr ∈ seen_in_connlog (db (run t cs s)))).
  { induction cs as [|c cs (new & He & Hsub & Hlen & Hmark)] using rev_ind.
    - exists []. cbn. rewrite app_nil_r. repeat split; try done. lia.
    - unfold run in *. rewrite foldl_app. cbn [foldl].
      set (s1 := foldl (handle t) s cs) in *.
      destruct (handle_about t saddr s1 c) as [Hs [Hsame|(ev & Hev & Hab)]].
      + exists new. split; [congruence|]. split; [set_solver|].
        split; [done|]. intros Hne. destruct (Hmark Hne). split; [done|set_solver].
      + exists (new ++ [ev])%list. split; [by rewrite Hev, He, app_assoc|].
        split; [set_solver|].
        rewrite filter_app, filter_cons, filter_nil, length_app.
        destruct (decide (about saddr ev)) as [Ha|Hna].
        * destruct (Hab Ha) as [Hunseen Hseen].
          assert (Hnil : filter (about saddr) new = []).
          { destruct (filter (about saddr) new) eqn:Ef; [done|].
            destruct Hmark as [_ Hm]; [done|]. done. }
          rewrite Hnil. cbn. split; [lia|]. intros _. split; [set_solver|done].
        * rewrite app_nil_r. cbn. split; [lia|].
          intros Hne. destruct (Hmark Hne). split; [done|set_solver]. }
  destruct Hinv as (new & He & Hsub & Hlen & Hmark).
  rewrite He, drop_app_length. split; [done|].
  intros Hseen. destruct (filter (about saddr) new) eqn:Ef; [done|].
  destruct Hmark as [Hno _]; [done|]. done.
Qed.

(** Three conn flows of one source whose MAC is bound to another address:
    the first sets the evidence, the others nothing. *)
Example one_device_evidence_per_source_example :
  let c u := Call "conn" "00:00:5e:00:53:af" "profile_192.168.1.6"
                  "timewindow1" u "1.0" in
  emitted (run dotted [c "uid1"; c "uid2"; c "uid3"] (bound_to ["192.168.1.5"]))
  = [device_changing_ips "00:00:5e:00:53:af" "192.168.1.5"
       "profile_192.168.1.6" "timewindow1" "uid1" "1.0"].
Proof. vm_compute. reflexivity. Qed.

End DeviceChangingIpsRuns_facts.

Module ReconnectionKeys_facts.
Import Reconnections ReconnectionKeys.

Lemma split_at_dash (a a' r r' : string) :
  no_dash a = true → no_dash a' = true →
  a ++ "-" ++ r = a' ++ "-" ++ r' → a = a' ∧ r = r'.
Proof.
  revert a'. induction a as [|c a IH]; intros [|c' a'] Ha Ha' Heq;
    cbn in *.
  - by injection Heq.
  - injection Heq as <- _. by rewrite Ascii.eqb_refl in Ha'.
  - injection Heq as -> _. by rewrite Ascii.eqb_refl in Ha.
  - injection Heq as -> Heq.
    apply andb_prop in Ha as [_ Ha]. apply andb_prop in Ha' as [_ Ha'].
    destruct (IH a' Ha Ha' Heq) as [-> ->]. done.
Qed.

(** Property X13.
    Two flows share a key of the reconnection table only when they have the
    same source, destination and destination port, as long as no address
    has a "-" in it, which no IPv4 or IPv6 address has. *)
Theorem reconnection_key_is_injective
  (saddr daddr saddr' daddr' : string) (dport dport' : Z) :
  no_dash saddr = true → no_dash daddr = true →
  no_dash saddr' = true → no_dash daddr' = true →
  reconnection_key saddr daddr dport = reconnection_key saddr' daddr' dport' →
  saddr = saddr' ∧ daddr = daddr' ∧ dport = dport'.
Proof.
  intros Hs Hd Hs' Hd' Heq. unfold reconnection_key in Heq.
  destruct (split_at_dash _ _ _ _ Hs Hs' Heq) as [-> Heq1].
  destruct (split_at_dash _ _ _ _ Hd Hd' Heq1) as [-> Heq2].
  by apply (inj pretty) in Heq2 as ->.
Qed.

Lemma reconnection_key_is_injective_witness :
  "10.0.0.1" = "10.0.0.1" ∧ "10.0.0.2" = "10.0.0.2" ∧ 80%Z = 80%Z.
Proof.
  apply (reconnection_key_is_injective
           "10.0.0.1" "10.0.0.2" "10.0.0.1" "10.0.0.2" 80 80);
    reflexivity.
Defined.

(** With a "-" in an address two different flows can share a key. *)
Example reconnection_key_collision :
  reconnection_key "a-b" "c" 80 = reconnection_key "a" "b-c" 80.
Proof. reflexivity. Qed.

End ReconnectionKeys_facts.

Module MultiplePorts_more_facts.
Import MultiplePorts.

(** Property X14.
    Whatever [detect_connection_to_multiple_ports] sets is one evidence, for
    an established TCP flow, built from the aggregate that the store keeps
    for the flow, which has at least two ports: the aggregate of the
    destination among the profile's outgoing connections where the profile
    is the source of the flow, and the aggregate of the source among its
    incoming ones where it is not.  The victim is the destination of the
    flow and the attacker the address of the profile; where the profile is
    not the source of the flow, these two are the same address, and the
    source of the flow is not named. *)
Theorem multiple_ports_evidence_shape (e : env)
  (saddr daddr proto state appproto : string) (dport : Z)
  (timestamp profileid twid : string) (evs : list evidence) :
  detect_connection_to_multiple_ports e saddr daddr proto state appproto dport
    timestamp profileid twid = Ret evs →
  evs = []
  ∨ ∃ entry,
      evs = [connection_to_multiple_ports profileid twid (uid entry) timestamp
               (dstports entry) daddr (last_field (split "_" profileid))]
      ∧ 2 ≤ length (dstports entry)
      ∧ proto = "tcp" ∧ state = "Established"
      ∧ ((split "_" profileid !! 1 = Some saddr
          ∧ get_data_from_profile_tw e profileid twid
              "Dst" "Established" "TCP" "Client" "IPs" !! daddr = Some entry)
         ∨ (split "_" profileid !! 1 ≠ Some saddr
            ∧ last_field (split "_" profileid) = daddr
            ∧ get_data_from_profile_tw e profileid twid
                "Src" "Established" "TCP" "Server" "IPs" !! saddr
              = Some entry)).
Proof.
  unfold detect_connection_to_multiple_ports.
  destruct (String.eqb_spec proto "tcp") as [->|]; cbn [negb orb];
    [|intros [= <-]; by left].
  destruct (String.eqb_spec state "Established") as [->|]; cbn [negb];
    [|intros [= <-]; by left].
  destruct (match (if truthy appproto then _ else _) with
            | Some n => truthy n | None => false end);
    [intros [= <-]; by left|].
  destruct (split "_" profileid !! 1) as [ip|] eqn:Eip; [|discriminate].
  destruct (String.eqb_spec ip saddr) as [->|Hip].
  - destruct (_ !! daddr) as [entry|] eqn:Ed; [|intros [= <-]; by left].
    destruct (length (dstports entry) <=? 1) eqn:L; [intros [= <-]; by left|].
    apply Nat.leb_gt in L. intros [= <-]. right. exists entry.
    split; [done|]. split; [done|]. split; [done|]. split; [done|].
    left. done.
  - destruct (String.eqb_spec (last_field (split "_" profileid)) daddr)
      as [Hl|]; [|intros [= <-]; by left].
    destruct (_ !! saddr) as [entry|] eqn:Es; [|discriminate].
    destruct (length (dstports entry) <=? 1) eqn:L; [intros [= <-]; by left|].
    apply Nat.leb_gt in L. intros [= <-]. right. exists entry.
    split; [by rewrite Hl|]. split; [done|]. split; [done|]. split; [done|].
    right. split; [congruence|]. done.
Qed.

Lemma multiple_ports_evidence_shape_witness :
  [connection_to_multiple_ports "profile_10.0.0.2" "timewindow1"
     ["uid1"; "uid2"] "1.0" ["22"; "8080"] "10.0.0.2" "10.0.0.2"] = []
  ∨ ∃ entry,
      [connection_to_multiple_ports "profile_10.0.0.2" "timewindow1"
         ["uid1"; "uid2"] "1.0" ["22"; "8080"] "10.0.0.2" "10.0.0.2"]
      = [connection_to_multiple_ports "profile_10.0.0.2" "timewindow1"
           (uid entry) "1.0" (dstports entry) "10.0.0.2"
           (last_field (split "_" "profile_10.0.0.2"))]
      ∧ 2 ≤ length (dstports entry)
      ∧ "tcp" = "tcp" ∧ "Established" = "Established"
      ∧ ((split "_" "profile_10.0.0.2" !! 1 = Some "10.0.0.9"
          ∧ get_data_from_profile_tw two_ports "profile_10.0.0.2" "timewindow1"
              "Dst" "Established" "TCP" "Client" "IPs" !! "10.0.0.2"
            = Some entry)
         ∨ (split "_" "profile_10.0.0.2" !! 1 ≠ Some "10.0.0.9"
            ∧ last_field (split "_" "profile_10.0.0.2") = "10.0.0.2"
            ∧ get_data_from_profile_tw two_ports "profile_10.0.0.2"
                "timewindow1" "Src" "Established" "TCP" "Server" "IPs"
                !! "10.0.0.9"
              = Some entry)).
Proof.
  apply (multiple_ports_evidence_shape two_ports "10.0.0.9" "10.0.0.2" "tcp"
           "Established" "" 8080 "1.0" "profile_10.0.0.2" "timewindow1").
  reflexivity.
Defined.

End MultiplePorts_more_facts.

Module Timeline_facts.
Import Timeline.


Example get_dns_resolution_examples :
  get_dns_resolution (Some ["a.com"; "b.com"; "c.com"])
  = Domains ["a.com"; "b.com"; "c.com"]
  ∧ get_dns_resolution (Some ["a.com"; "b.com"; "c.com"; "d.com"]) = Text "d.com"
  ∧ get_dns_resolution (Some ["a.com"; "b.com"; "c.com"; ""]) = Text "????"
  ∧ get_dns_resolution (Some []) = Text "????"
  ∧ get_dns_resolution None = Text "????".
Proof. repeat split. Qed.

End Timeline_facts.
